(** * ASCII post-processing pipeline of shader-3d-solids

    A shallow embedding of
    - [src/ascii-shader.ts] (three.js backend: font atlas builder and the
      GLSL composite shader),
    - the typegpu flavour of the same file (font atlas builder and the WGSL
      composite shader),
    - [src/three-renderer.ts] (the renderer shell: initialize and resize,
      the mouse and key handlers, render and destroy),
    - [src/main.ts] (start-up of the render loop),
    - the WGSL vertex shader of the composite pass,
    - the dodecahedron geometry (mesh generation).

    Two models of the arithmetic are used.  In the first, shader floats and
    JavaScript numbers are exact rationals ([Q]) and division is [Qdiv],
    which is total; the statements proved over it are the ones that rounding
    does not change (weak orders, whole numbers, what is stored and what is
    left alone), and a statement whose truth depends on a divisor or on a
    sign carries that as a hypothesis.  In the second, the two fragment
    shaders are embedded over binary32 with every operation rounded to
    nearest ([Binary32], on the Standard Library's [SpecFloat]); it is used
    where rounding decides whether a statement holds. *)

From Stdlib Require Import QArith Qround ZArith Lqa Lia String Ascii List Bool.
From Stdlib Require Import SpecFloat.
Import ListNotations.

Local Open Scope Q_scope.

(** ** Vectors and shader builtins shared by GLSL and WGSL *)

Module Shading.

Record vec2 : Type := Vec2 { x2 : Q; y2 : Q }.
Record vec3 : Type := Vec3 { x3 : Q; y3 : Q; z3 : Q }.
Record vec4 : Type := Vec4 { r4 : Q; g4 : Q; b4 : Q; a4 : Q }.

(** swizzle [.rgb] *)
Definition rgb (c : vec4) : vec3 := Vec3 (r4 c) (g4 c) (b4 c).

(** [vec4(v, w)] *)
Definition vec4_of (v : vec3) (w : Q) : vec4 := Vec4 (x3 v) (y3 v) (z3 v) w.

(** [floor(x)]: the largest integer not above [x], as a float *)
Definition floor (x : Q) : Q := inject_Z (Qfloor x).

(** [fract(x) = x - floor(x)] *)
Definition fract (x : Q) : Q := x - floor x.

Definition floor2 (v : vec2) : vec2 := Vec2 (floor (x2 v)) (floor (y2 v)).
Definition fract2 (v : vec2) : vec2 := Vec2 (fract (x2 v)) (fract (y2 v)).

(** [v / s] for a vector and a scalar, [v * w] and [v / w] component-wise *)
Definition div2s (v : vec2) (s : Q) : vec2 := Vec2 (x2 v / s) (y2 v / s).
Definition mul2 (v w : vec2) : vec2 := Vec2 (x2 v * x2 w) (y2 v * y2 w).
Definition div2 (v w : vec2) : vec2 := Vec2 (x2 v / x2 w) (y2 v / y2 w).

(** [v * s] for a vec3 and a scalar *)
Definition mul3s (v : vec3) (s : Q) : vec3 := Vec3 (x3 v * s) (y3 v * s) (z3 v * s).

Definition dot (v w : vec3) : Q := x3 v * x3 w + y3 v * y3 w + z3 v * z3 w.

(** A bound texture: what a lookup at a normalised coordinate returns. *)
Definition sampler2D : Type := vec2 -> vec4.

(** The named locals of the per-pixel composite algorithm, in the order in
    which both fragment shaders compute them. *)
Record Locals : Type := MkLocals {
  gridDims : vec2;
  cellUv : vec2;
  sceneColor : vec4;
  luminance : Q;
  charIndex : Q;
  uvInCell : vec2;
  fontU : Q;
  fontV : Q;
  fontColor : vec4
}.

(** The three colour channels of a sample are in the unit interval. *)
Definition unit_rgb (c : vec4) : Prop :=
  0 <= r4 c <= 1 /\ 0 <= g4 c <= 1 /\ 0 <= b4 c <= 1.

End Shading.

Import Shading.

(** ** three.js backend: [src/ascii-shader.ts] *)

Module AsciiShaderThree.

Definition CHAR_SET : string := ".:-=+*%#@".

(** [AsciiShader.uniforms], over the type [T] of a texture value: a handle
    on the JavaScript side, a bound sampler inside the shader. *)
Record Uniforms (T : Type) : Type := MkUniforms {
  tDiffuse : T;
  tFont : T;
  uCharCount : Q;
  uResolution : vec2;
  uFontSize : Q;
  uColor : vec3;
  uBgColor : vec3
}.
Arguments MkUniforms {T}.
Arguments tDiffuse {T}.
Arguments tFont {T}.
Arguments uCharCount {T}.
Arguments uResolution {T}.
Arguments uFontSize {T}.
Arguments uColor {T}.
Arguments uBgColor {T}.

(** [texture2D(sampler, coord)] *)
Definition texture2D (s : sampler2D) (p : vec2) : vec4 := s p.

(** Body of [AsciiShader.fragmentShader]'s [main] up to the last texture
    lookup. *)
Definition fragmentLocals (u : Uniforms sampler2D) (vUv : vec2) : Locals :=
  let gridDims := div2s (uResolution u) (uFontSize u) in
  let cellUv := div2 (floor2 (mul2 vUv gridDims)) gridDims in
  let sceneColor := texture2D (tDiffuse u) cellUv in
  let luminance := 1 - dot (rgb sceneColor) (Vec3 0.299 0.587 0.114) in
  let charIndex := floor (luminance * (uCharCount u - 1)) in
  let uvInCell := fract2 (mul2 vUv gridDims) in
  let fontU := (charIndex + x2 uvInCell) / uCharCount u in
  let fontV := y2 uvInCell in
  let fontColor := texture2D (tFont u) (Vec2 fontU fontV) in
  MkLocals gridDims cellUv sceneColor luminance charIndex uvInCell
           fontU fontV fontColor.

(** [gl_FragColor = vec4(uColor, fontColor.r * sceneColor.a)] *)
Definition fragmentShader (u : Uniforms sampler2D) (vUv : vec2) : vec4 :=
  let l := fragmentLocals u vUv in
  vec4_of (uColor u) (r4 (fontColor l) * a4 (sceneColor l)).

End AsciiShaderThree.

(** ** typegpu backend: the WGSL flavour of the ascii shader *)

Module AsciiShaderGpu.

Definition CHAR_SET : string := ".:-=+*%#@".

(** [struct AsciiParams] *)
Record AsciiParams : Type := MkAsciiParams {
  uCharCount : Q;
  uFontSize : Q;
  uResolution : vec2;
  uColor : vec3;
  uBgColor : vec3
}.

(** A [texture_2d<f32>] seen through the one sampler of the bind group. *)
Definition texture_2d : Type := vec2 -> vec4.
Inductive sampler : Type := SSampler.

Definition textureSample (t : texture_2d) (s : sampler) (p : vec2) : vec4 := t p.

(** Body of [asciiFragmentShader]'s [main] up to the last texture lookup. *)
Definition asciiFragmentLocals (tDiffuse tFont : texture_2d) (sSampler : sampler)
    (params : AsciiParams) (uv : vec2) : Locals :=
  let gridDims := div2s (uResolution params) (uFontSize params) in
  let cellUv := div2 (floor2 (mul2 uv gridDims)) gridDims in
  let sceneColor := textureSample tDiffuse sSampler cellUv in
  let luminance := 1 - dot (rgb sceneColor) (Vec3 0.299 0.587 0.114) in
  let charIndex := floor (luminance * (uCharCount params - 1)) in
  let uvInCell := fract2 (mul2 uv gridDims) in
  let fontU := (charIndex + x2 uvInCell) / uCharCount params in
  let fontV := y2 uvInCell in
  let fontColor := textureSample tFont sSampler (Vec2 fontU fontV) in
  MkLocals gridDims cellUv sceneColor luminance charIndex uvInCell
           fontU fontV fontColor.

(** [return vec4f(sceneColor.rgb * fontColor.r, sceneColor.a * fontColor.r)] *)
Definition asciiFragmentShader (tDiffuse tFont : texture_2d) (sSampler : sampler)
    (params : AsciiParams) (uv : vec2) : vec4 :=
  let l := asciiFragmentLocals tDiffuse tFont sSampler params uv in
  vec4_of (mul3s (rgb (sceneColor l)) (r4 (fontColor l)))
          (a4 (sceneColor l) * r4 (fontColor l)).

End AsciiShaderGpu.

(** ** The browser objects the font atlas builders use *)

Module Dom.

(** What a 2D context has painted, with the context state in force. *)
Inductive DrawCmd : Type :=
| FillRect (fillStyle : string) (x y w h : Z)
| FillText (fillStyle font textAlign textBaseline : string)
           (text : string) (x y : Z).

(** An [HTMLCanvasElement]: its size and what has been painted on it. *)
Record HTMLCanvasElement : Type := MkCanvas {
  width : Z;
  height : Z;
  painted : list DrawCmd
}.

(** A [CanvasRenderingContext2D]: the drawing state and its canvas. *)
Record CanvasRenderingContext2D : Type := MkContext {
  fillStyle : string;
  font : string;
  textAlign : string;
  textBaseline : string;
  canvas : HTMLCanvasElement
}.

(** [document] and [window] as the code reads them: whether a canvas hands
    out a 2D context, and the device pixel ratio. *)
Record Browser : Type := MkBrowser {
  has2dContext : bool;
  devicePixelRatio : Q
}.

(** [new Error(message)] *)
Inductive Error : Type := MkError (message : string).

(** A call either returns or throws. *)
Inductive completion (A : Type) : Type :=
| Return (a : A)
| Throw (e : Error).
Arguments Return {A}.
Arguments Throw {A}.

(** [document.createElement('canvas')]: 300 by 150, nothing painted. *)
Definition createElement_canvas : HTMLCanvasElement := MkCanvas 300 150 [].

(** [canvas.getContext('2d')], [None] for [null]. *)
Definition getContext_2d (b : Browser) (cv : HTMLCanvasElement)
  : option CanvasRenderingContext2D :=
  if has2dContext b
  then Some (MkContext "#000000" "10px sans-serif" "start" "alphabetic" cv)
  else None.

(** Assigning [canvas.width] / [canvas.height] resizes and clears it. *)
Definition set_width (c : CanvasRenderingContext2D) (w : Z) :=
  MkContext (fillStyle c) (font c) (textAlign c) (textBaseline c)
            (MkCanvas w (height (canvas c)) []).
Definition set_height (c : CanvasRenderingContext2D) (h : Z) :=
  MkContext (fillStyle c) (font c) (textAlign c) (textBaseline c)
            (MkCanvas (width (canvas c)) h []).

Definition set_fillStyle (c : CanvasRenderingContext2D) (s : string) :=
  MkContext s (font c) (textAlign c) (textBaseline c) (canvas c).
Definition set_font (c : CanvasRenderingContext2D) (s : string) :=
  MkContext (fillStyle c) s (textAlign c) (textBaseline c) (canvas c).
Definition set_textAlign (c : CanvasRenderingContext2D) (s : string) :=
  MkContext (fillStyle c) (font c) s (textBaseline c) (canvas c).
Definition set_textBaseline (c : CanvasRenderingContext2D) (s : string) :=
  MkContext (fillStyle c) (font c) (textAlign c) s (canvas c).

Definition paint (c : CanvasRenderingContext2D) (d : DrawCmd) :=
  MkContext (fillStyle c) (font c) (textAlign c) (textBaseline c)
            (MkCanvas (width (canvas c)) (height (canvas c))
                      (painted (canvas c) ++ [d])).

Definition fillRect (c : CanvasRenderingContext2D) (x y w h : Z) :=
  paint c (FillRect (fillStyle c) x y w h).
Definition fillText (c : CanvasRenderingContext2D) (text : string) (x y : Z) :=
  paint c (FillText (fillStyle c) (font c) (textAlign c) (textBaseline c) text x y).

(** [s[i]] of a JavaScript string, printed as [fillText] prints it. *)
Definition charAt (s : string) (i : nat) : string :=
  match String.get i s with
  | Some ch => String ch EmptyString
  | None => "undefined"
  end.

End Dom.

Import Dom.

Local Open Scope Z_scope.

(** ** Font atlas builder, three.js backend *)

Module AtlasThree.

Import AsciiShaderThree.

Inductive TextureFilter : Type :=
| NearestFilter | LinearFilter | LinearMipmapLinearFilter.

(** A [THREE.Texture] over a canvas. *)
Record Texture : Type := MkTexture {
  image : HTMLCanvasElement;
  minFilter : TextureFilter;
  magFilter : TextureFilter;
  generateMipmaps : bool
}.

(** [new THREE.CanvasTexture(canvas)] with three.js' defaults *)
Definition CanvasTexture (cv : HTMLCanvasElement) : Texture :=
  MkTexture cv LinearMipmapLinearFilter LinearFilter true.

(** [fontSize] is the constant 64, so [fontSize / 2] is the exact 32. *)
Definition createAsciiTexture (b : Browser) : completion Texture :=
  let fontSize := 64 in
  let canvas := createElement_canvas in
  match getContext_2d b canvas with
  | None => Throw (MkError "Could not create 2D context for ASCII texture")
  | Some context =>
      let charCount := String.length CHAR_SET in
      let context := set_width context (Z.of_nat charCount * fontSize) in
      let context := set_height context fontSize in
      let context := set_fillStyle context "#000000" in
      let context :=
        fillRect context 0 0 (width (Dom.canvas context)) (height (Dom.canvas context)) in
      let context := set_font context "bold 64px monospace" in
      let context := set_textAlign context "center" in
      let context := set_textBaseline context "middle" in
      let context := set_fillStyle context "#ffffff" in
      let context :=
        fold_left
          (fun ctx i =>
             let char := charAt CHAR_SET i in
             let x := Z.of_nat i * fontSize + fontSize / 2 in
             let y := fontSize / 2 in
             fillText ctx char x y)
          (seq 0 charCount) context in
      let texture := CanvasTexture (Dom.canvas context) in
      let texture := MkTexture (image texture) NearestFilter (magFilter texture)
                               (generateMipmaps texture) in
      let texture := MkTexture (image texture) (minFilter texture) NearestFilter
                               (generateMipmaps texture) in
      let texture := MkTexture (image texture) (minFilter texture) (magFilter texture)
                               false in
      Return texture
  end.

End AtlasThree.

(** ** Font atlas builder, typegpu backend *)

Module AtlasGpu.

Import AsciiShaderGpu.

Inductive GPUTextureUsage : Type := TEXTURE_BINDING | COPY_DST | RENDER_ATTACHMENT.

(** A [GPUTexture]: its descriptor and the image copied into it. *)
Record GPUTexture : Type := MkGPUTexture {
  size : Z * Z * Z;
  format : string;
  usage : list GPUTextureUsage;
  contents : option (HTMLCanvasElement * (Z * Z))
}.

(** [device.createTexture(descriptor)] *)
Definition createTexture (size : Z * Z * Z) (format : string)
    (usage : list GPUTextureUsage) : GPUTexture :=
  MkGPUTexture size format usage None.

(** [device.queue.copyExternalImageToTexture({source}, {texture}, copySize)] *)
Definition copyExternalImageToTexture (source : HTMLCanvasElement)
    (texture : GPUTexture) (copySize : Z * Z) : GPUTexture :=
  MkGPUTexture (size texture) (format texture) (usage texture)
               (Some (source, copySize)).

(** [fontSize] is the constant 64, so [fontSize / 2] is the exact 32. *)
Definition createAsciiTexture (b : Browser) : completion GPUTexture :=
  let fontSize := 64 in
  let charCount := String.length CHAR_SET in
  let width := Z.of_nat charCount * fontSize in
  let height := fontSize in
  let canvas := createElement_canvas in
  let canvas := MkCanvas width (Dom.height canvas) [] in
  let canvas := MkCanvas (Dom.width canvas) height [] in
  match getContext_2d b canvas with
  | None => Throw (MkError "Could not create 2D context for ASCII texture")
  | Some context =>
      let context := set_fillStyle context "#000000" in
      let context := fillRect context 0 0 width height in
      let context := set_font context "bold 64px monospace" in
      let context := set_textAlign context "center" in
      let context := set_textBaseline context "middle" in
      let context := set_fillStyle context "#ffffff" in
      let context :=
        fold_left
          (fun ctx i =>
             let char := charAt CHAR_SET i in
             let x := Z.of_nat i * fontSize + fontSize / 2 in
             let y := fontSize / 2 in
             fillText ctx char x y)
          (seq 0 charCount) context in
      let texture :=
        createTexture (width, height, 1) "rgba8unorm"
                      [TEXTURE_BINDING; COPY_DST; RENDER_ATTACHMENT] in
      let texture :=
        copyExternalImageToTexture (Dom.canvas context) texture (width, height) in
      Return texture
  end.

End AtlasGpu.

Local Open Scope Q_scope.

(** ** The renderer shell: [src/three-renderer.ts] *)

Module ThreeRenderer.

Import AsciiShaderThree AtlasThree.

(** A JavaScript number as [width / height] can produce it. *)
Inductive JsNumber : Type :=
| Finite (q : Q)
| PosInfinity
| NegInfinity
| NaN.

(** [a / b] on finite numbers. *)
Definition js_div (a b : Q) : JsNumber :=
  if Qeq_bool b 0 then
    if Qeq_bool a 0 then NaN
    else if Qle_bool 0 a then PosInfinity else NegInfinity
  else Finite (a / b).

(** The container element: its client size in CSS pixels. *)
Record HTMLElement : Type := MkElement {
  clientWidth : Q;
  clientHeight : Q
}.

Record WebGLRenderer : Type := MkRenderer {
  rWidth : Q;
  rHeight : Q;
  rPixelRatio : Q;
  rClearAlpha : Q
}.

(** [aspect] is the property, [projectionAspect] the aspect the projection
    matrix was last computed from. *)
Record PerspectiveCamera : Type := MkCamera {
  fov : Q;
  aspect : JsNumber;
  near : Q;
  far : Q;
  positionZ : Q;
  projectionAspect : JsNumber
}.

Record WebGLRenderTarget : Type := MkTarget {
  targetWidth : Q;
  targetHeight : Q
}.

(** The value of a texture uniform on the JavaScript side. *)
Inductive TextureValue : Type :=
| NullTexture
| TargetTexture
| FontTexture (t : Texture).

Record ShaderMaterial : Type := MkMaterial {
  uniforms : Uniforms TextureValue
}.

(** An object literal [{ x, y }]. *)
Record XY : Type := MkXY { xOf : Q; yOf : Q }.

Record ThreeRenderer : Type := MkThreeRenderer {
  container : option HTMLElement;
  renderer : option WebGLRenderer;
  scene : bool;
  camera : option PerspectiveCamera;
  cube : bool;
  renderTarget : option WebGLRenderTarget;
  postScene : bool;
  postCamera : bool;
  postMaterial : option ShaderMaterial;
  geometry : bool;
  material : bool;
  isDragging : bool;
  previousMousePosition : XY;
  targetRotation : XY;
  currentRotation : XY
}.

(** [new ThreeRenderer()]: every handle is [null]. *)
Definition new_ThreeRenderer : ThreeRenderer :=
  MkThreeRenderer None None false None false None false false None false false
                  false (MkXY 0 0) (MkXY 0 0) (MkXY 0 0).

(** [AsciiShader.uniforms], as [THREE.UniformsUtils.clone] copies them. *)
Definition AsciiShader_uniforms : Uniforms TextureValue :=
  MkUniforms NullTexture NullTexture
             (inject_Z (Z.of_nat (String.length CHAR_SET)))
             (Vec2 0 0) 10 (Vec3 1 1 1) (Vec3 0 0 0).

Definition set_tDiffuse (u : Uniforms TextureValue) (t : TextureValue) :=
  MkUniforms t (tFont u) (uCharCount u) (uResolution u) (uFontSize u)
             (uColor u) (uBgColor u).
Definition set_tFont (u : Uniforms TextureValue) (t : TextureValue) :=
  MkUniforms (tDiffuse u) t (uCharCount u) (uResolution u) (uFontSize u)
             (uColor u) (uBgColor u).
Definition set_uResolution (u : Uniforms TextureValue) (x y : Q) :=
  MkUniforms (tDiffuse u) (tFont u) (uCharCount u) (Vec2 x y) (uFontSize u)
             (uColor u) (uBgColor u).
Definition set_uFontSize (u : Uniforms TextureValue) (s : Q) :=
  MkUniforms (tDiffuse u) (tFont u) (uCharCount u) (uResolution u) s
             (uColor u) (uBgColor u).

(** [initialize(container)].  The returned renderer is the object as the
    call leaves it, also when [createAsciiTexture] throws half way. *)
Definition initialize (b : Browser) (this : ThreeRenderer)
    (container : HTMLElement) : ThreeRenderer * option Error :=
  let dpr := devicePixelRatio b in
  let camera := MkCamera 75 (Finite 1) (1 # 10) 1000 (28 # 10) (Finite 1) in
  let renderer :=
    MkRenderer (clientWidth container) (clientHeight container) dpr 0 in
  let renderTarget :=
    MkTarget (clientWidth container * dpr) (clientHeight container * dpr) in
  let before :=
    MkThreeRenderer (Some container) (Some renderer) true (Some camera) true
                    (Some renderTarget) true true (postMaterial this) true true
                    (isDragging this) (previousMousePosition this)
                    (targetRotation this) (currentRotation this) in
  match createAsciiTexture b with
  | Throw e => (before, Some e)
  | Return fontTexture =>
      let u := AsciiShader_uniforms in
      let u := set_tDiffuse u TargetTexture in
      let u := set_tFont u (FontTexture fontTexture) in
      let u := set_uResolution u (clientWidth container * dpr)
                                 (clientHeight container * dpr) in
      let u := set_uFontSize u (10 * dpr) in
      (MkThreeRenderer (Some container) (Some renderer) true (Some camera) true
                       (Some renderTarget) true true (Some (MkMaterial u)) true true
                       (isDragging this) (previousMousePosition this)
                       (targetRotation this) (currentRotation this),
       None)
  end.

(** [resize(width, height)] *)
Definition resize (b : Browser) (this : ThreeRenderer) (width height : Q)
  : ThreeRenderer :=
  match renderer this, camera this, renderTarget this, postMaterial this with
  | Some r, Some c, Some rt, Some pm =>
      let c := MkCamera (fov c) (js_div width height) (near c) (far c)
                        (positionZ c) (projectionAspect c) in
      let c := MkCamera (fov c) (aspect c) (near c) (far c)
                        (positionZ c) (aspect c) in
      let r := MkRenderer width height (rPixelRatio r) (rClearAlpha r) in
      let rt := MkTarget (width * devicePixelRatio b)
                         (height * devicePixelRatio b) in
      let pm := MkMaterial (set_uResolution (uniforms pm)
                              (width * devicePixelRatio b)
                              (height * devicePixelRatio b)) in
      MkThreeRenderer (container this) (Some r) (scene this) (Some c) (cube this)
                      (Some rt) (postScene this) (postCamera this) (Some pm)
                      (geometry this) (material this)
                      (isDragging this) (previousMousePosition this)
                      (targetRotation this) (currentRotation this)
  | _, _, _, _ => this
  end.

(** The renderer holds everything [resize] asks for. *)
Definition initialized (this : ThreeRenderer) : bool :=
  match renderer this, camera this, renderTarget this, postMaterial this with
  | Some _, Some _, Some _, Some _ => true
  | _, _, _, _ => false
  end.

(** Size of the intermediate scene buffer, when there is one. *)
Definition bufferSize (this : ThreeRenderer) : option (Q * Q) :=
  match renderTarget this with
  | Some rt => Some (targetWidth rt, targetHeight rt)
  | None => None
  end.

(** The uniforms of the composite pass, when there is a material. *)
Definition asciiUniforms (this : ThreeRenderer) : option (Uniforms TextureValue) :=
  match postMaterial this with
  | Some pm => Some (uniforms pm)
  | None => None
  end.

End ThreeRenderer.

(** ** Start-up: [src/main.ts] *)

Module Main.

Import ThreeRenderer.

(** What the script has set up when it ends. *)
Record Started : Type := MkStarted {
  theRenderer : option ThreeRenderer;
  resizeListener : bool;
  renderLoop : bool;
  uncaught : option Error
}.

(** The body of [main.ts]; [app] is the element [#app], if the page has one. *)
Definition main (b : Browser) (app : option HTMLElement) : Started :=
  match app with
  | None => MkStarted None false false None
  | Some app =>
      let renderer := new_ThreeRenderer in
      match initialize b renderer app with
      | (renderer, Some e) => MkStarted (Some renderer) false false (Some e)
      | (renderer, None) => MkStarted (Some renderer) true true None
      end
  end.

End Main.

(** ** The composite pass of either backend, over one input *)

Module Composite.

Inductive Backend : Type := Three | TypeGpu.

(** Everything a fragment of the composite pass reads. *)
Record PassInput : Type := MkPassInput {
  sceneTexture : vec2 -> vec4;
  fontAtlas : vec2 -> vec4;
  charCount : Q;
  resolution : vec2;
  cellSizePixels : Q;
  textColor : vec3;
  backgroundColor : vec3;
  uv : vec2
}.

Definition threeUniforms (i : PassInput) : AsciiShaderThree.Uniforms sampler2D :=
  AsciiShaderThree.MkUniforms (sceneTexture i) (fontAtlas i) (charCount i)
    (resolution i) (cellSizePixels i) (textColor i) (backgroundColor i).

Definition gpuParams (i : PassInput) : AsciiShaderGpu.AsciiParams :=
  AsciiShaderGpu.MkAsciiParams (charCount i) (cellSizePixels i) (resolution i)
    (textColor i) (backgroundColor i).

(** The locals a backend's fragment shader computes on an input. *)
Definition passLocals (k : Backend) (i : PassInput) : Locals :=
  match k with
  | Three => AsciiShaderThree.fragmentLocals (threeUniforms i) (uv i)
  | TypeGpu =>
      AsciiShaderGpu.asciiFragmentLocals (sceneTexture i) (fontAtlas i)
        AsciiShaderGpu.SSampler (gpuParams i) (uv i)
  end.

(** The colour a backend's fragment shader writes on an input. *)
Definition passColor (k : Backend) (i : PassInput) : vec4 :=
  match k with
  | Three => AsciiShaderThree.fragmentShader (threeUniforms i) (uv i)
  | TypeGpu =>
      AsciiShaderGpu.asciiFragmentShader (sceneTexture i) (fontAtlas i)
        AsciiShaderGpu.SSampler (gpuParams i) (uv i)
  end.

(** The character set of a backend. *)
Definition rampOf (k : Backend) : string :=
  match k with
  | Three => AsciiShaderThree.CHAR_SET
  | TypeGpu => AsciiShaderGpu.CHAR_SET
  end.

(** The glyph the font atlas builders paint in the cell a character index
    addresses. *)
Definition glyphOf (k : Backend) (l : Locals) : string :=
  charAt (rampOf k) (Z.to_nat (Qfloor (charIndex l))).

(** Brightness of a scene sample before the inversion. *)
Definition brightness (l : Locals) : Q :=
  dot (rgb (sceneColor l)) (Vec3 0.299 0.587 0.114).

(** An input over a scene and an atlas of one colour each. *)
Definition flatInput (scene font : vec4) (n : Q) (at_uv : vec2) : PassInput :=
  MkPassInput (fun _ => scene) (fun _ => font) n (Vec2 640 480) 10
              (Vec3 1 1 1) (Vec3 0 0 0) at_uv.

End Composite.

Import Composite.

(** ** Start-up of the typegpu flavour of [main.ts]

    [TypeGpuRenderer] is not part of the sources at hand; the outcome of its
    [initialize] is an argument. *)

Module MainGpu.

Record Started : Type := MkStarted {
  resizeListener : bool;
  renderLoop : bool;
  fallbackShown : bool
}.

(** The body of [start], run when the page has an element [#app]. *)
Definition start (initialize : completion unit) : Started :=
  match initialize with
  | Return _ => MkStarted true true false
  | Throw _ => MkStarted false false true
  end.

Definition main (initialize : completion unit) (app : bool) : Started :=
  if app then start initialize else MkStarted false false false.

End MainGpu.

(** ** Concrete inputs *)

Module Samples.

Import ThreeRenderer.

(** A mid-grey scene under a fully inked atlas, nine characters. *)
Definition greyInput : PassInput :=
  flatInput (Vec4 0.5 0.5 0.5 1) (Vec4 1 1 1 1) 9 (Vec2 0.5 0.5).


Definition blackInput : PassInput :=
  flatInput (Vec4 0 0 0 1) (Vec4 1 1 1 1) 9 (Vec2 0.5 0.5).

Definition whiteInput : PassInput :=
  flatInput (Vec4 1 1 1 1) (Vec4 1 1 1 1) 9 (Vec2 0.5 0.5).

(** A white scene where the atlas has no ink. *)
Definition inklessInput : PassInput :=
  flatInput (Vec4 1 1 1 1) (Vec4 0 0 0 1) 9 (Vec2 0.5 0.5).

(** An uncovered scene sample under a fully inked atlas. *)
Definition uncoveredInput : PassInput :=
  flatInput (Vec4 0.5 0.5 0.5 0) (Vec4 1 1 1 1) 9 (Vec2 0.5 0.5).

Definition retina : Browser := MkBrowser true 2.
Definition noCanvas : Browser := MkBrowser false 2.

Definition page : HTMLElement := MkElement 640 480.

(** A renderer after a successful [initialize]. *)
Definition running : ThreeRenderer :=
  fst (initialize retina new_ThreeRenderer page).

End Samples.

Import Samples.

(** ** The WGSL vertex shader of the composite pass *)

Module AsciiVertexGpu.

(** [struct VertexOutput] *)
Record VertexOutput : Type := MkVertexOutput {
  position : vec4;
  vertexUv : vec2
}.

(** [asciiVertexShader]'s [main] *)
Definition asciiVertexShader (pos : vec2) : VertexOutput :=
  let out_position := Vec4 (x2 pos) (y2 pos) 0 1 in
  let out_uv := Vec2 ((x2 pos + 1) * 0.5) ((y2 pos + 1) * 0.5) in
  let out_uv := Vec2 (x2 out_uv) (1 - y2 out_uv) in
  MkVertexOutput out_position out_uv.

End AsciiVertexGpu.

(** ** Another fragment of the same pass *)

Module Pixels.



(** A single-character ramp. *)
Definition oneGlyphInput : PassInput :=
  flatInput (Vec4 0.5 0.5 0.5 1) (Vec4 1 1 1 1) 1 (Vec2 0.53 0.57).

End Pixels.

Import Pixels.

(** ** Interaction, the frame and teardown of [src/three-renderer.ts]

    What the handlers, [render] and [destroy] touch outside the fields of
    the renderer object (the cursor of the container, the registered
    listeners, the rotation of the cube, the draws of a frame, the
    disposed resources) is kept beside it in a [World]. *)

Module Interaction.

Import ThreeRenderer.

(** The four handler properties of a renderer. *)
Inductive Handler : Type := OnMouseDown | OnMouseMove | OnMouseUp | OnKeyDown.

(** A registered listener: event type and handler. *)
Definition Listener : Type := (string * Handler)%type.

(** What a renderer allocates and could release. *)
Inductive Resource : Type :=
| TheGeometry | TheMaterial | TheRenderer
| TheRenderTarget | ThePostMaterial | TheFontTexture.

(** One [renderer.render] of a frame: which scene goes where. *)
Inductive Draw : Type := SceneToTarget | PostToScreen.

Record MouseEvent : Type := MkMouseEvent { clientX : Q; clientY : Q }.
Record KeyboardEvent : Type := MkKeyboardEvent { key : string }.

Record World : Type := MkWorld {
  self : ThreeRenderer;
  cursor : string;
  containerListeners : list Listener;
  windowListeners : list Listener;
  cubeRotation : XY;
  drawn : list Draw;
  disposed : list Resource
}.

(** A page on which nothing has been set up. *)
Definition fresh : World :=
  MkWorld new_ThreeRenderer "" [] [] (MkXY 0 0) [] [].

Definition with_self (w : World) (s : ThreeRenderer) : World :=
  MkWorld s (cursor w) (containerListeners w) (windowListeners w)
          (cubeRotation w) (drawn w) (disposed w).

Definition set_isDragging (t : ThreeRenderer) (d : bool) : ThreeRenderer :=
  MkThreeRenderer (container t) (renderer t) (scene t) (camera t) (cube t)
    (renderTarget t) (postScene t) (postCamera t) (postMaterial t)
    (geometry t) (material t) d (previousMousePosition t)
    (targetRotation t) (currentRotation t).

Definition set_previousMousePosition (t : ThreeRenderer) (p : XY) : ThreeRenderer :=
  MkThreeRenderer (container t) (renderer t) (scene t) (camera t) (cube t)
    (renderTarget t) (postScene t) (postCamera t) (postMaterial t)
    (geometry t) (material t) (isDragging t) p
    (targetRotation t) (currentRotation t).

Definition set_targetRotation (t : ThreeRenderer) (p : XY) : ThreeRenderer :=
  MkThreeRenderer (container t) (renderer t) (scene t) (camera t) (cube t)
    (renderTarget t) (postScene t) (postCamera t) (postMaterial t)
    (geometry t) (material t) (isDragging t) (previousMousePosition t)
    p (currentRotation t).

Definition set_currentRotation (t : ThreeRenderer) (p : XY) : ThreeRenderer :=
  MkThreeRenderer (container t) (renderer t) (scene t) (camera t) (cube t)
    (renderTarget t) (postScene t) (postCamera t) (postMaterial t)
    (geometry t) (material t) (isDragging t) (previousMousePosition t)
    (targetRotation t) p.

Definition handler_eqb (a b : Handler) : bool :=
  match a, b with
  | OnMouseDown, OnMouseDown | OnMouseMove, OnMouseMove
  | OnMouseUp, OnMouseUp | OnKeyDown, OnKeyDown => true
  | _, _ => false
  end.

Definition listener_eqb (a b : Listener) : bool :=
  String.eqb (fst a) (fst b) && handler_eqb (snd a) (snd b).

(** [target.addEventListener(type, handler)]: a listener that is already
    registered is not added again. *)
Definition addEventListener (ls : list Listener) (l : Listener) : list Listener :=
  if existsb (listener_eqb l) ls then ls else ls ++ [l].

(** [target.removeEventListener(type, handler)] *)
Definition removeEventListener (ls : list Listener) (l : Listener) : list Listener :=
  filter (fun x => negb (listener_eqb l x)) ls.

Definition setupInteraction (w : World) : World :=
  match container (self w) with
  | None => w
  | Some _ =>
      let cl := addEventListener (containerListeners w) ("mousedown"%string, OnMouseDown) in
      let cl := addEventListener cl ("mousemove"%string, OnMouseMove) in
      let wl := addEventListener (windowListeners w) ("mouseup"%string, OnMouseUp) in
      let wl := addEventListener wl ("keydown"%string, OnKeyDown) in
      MkWorld (self w) (cursor w) cl wl (cubeRotation w) (drawn w) (disposed w)
  end.

(** [initialize(container)] with its last step, the interaction listeners. *)
Definition initialize (b : Browser) (w : World) (c : HTMLElement)
  : World * option Error :=
  match ThreeRenderer.initialize b (self w) c with
  | (s, Some e) => (with_self w s, Some e)
  | (s, None) => (setupInteraction (with_self w s), None)
  end.

Definition onMouseDown (w : World) (e : MouseEvent) : World :=
  let s := set_isDragging (self w) true in
  let s := set_previousMousePosition s (MkXY (clientX e) (clientY e)) in
  MkWorld s
          (match container s with Some _ => "grabbing"%string | None => cursor w end)
          (containerListeners w) (windowListeners w)
          (cubeRotation w) (drawn w) (disposed w).

Definition onMouseMove (w : World) (e : MouseEvent) : World :=
  if isDragging (self w) then
    let s := self w in
    let deltaMove :=
      MkXY (clientX e - xOf (previousMousePosition s))
           (clientY e - yOf (previousMousePosition s)) in
    let s := set_targetRotation s
               (MkXY (xOf (targetRotation s) + yOf deltaMove * 0.01)
                     (yOf (targetRotation s))) in
    let s := set_targetRotation s
               (MkXY (xOf (targetRotation s))
                     (yOf (targetRotation s) + xOf deltaMove * 0.01)) in
    let s := set_previousMousePosition s (MkXY (clientX e) (clientY e)) in
    with_self w s
  else w.

Definition onMouseUp (w : World) : World :=
  let s := set_isDragging (self w) false in
  MkWorld s
          (match container s with Some _ => "grab"%string | None => cursor w end)
          (containerListeners w) (windowListeners w)
          (cubeRotation w) (drawn w) (disposed w).

Definition onKeyDown (w : World) (e : KeyboardEvent) : World :=
  let SPEED := 0.1 in
  let s := self w in
  let s := if String.eqb (key e) "ArrowUp"
           then set_targetRotation s
                  (MkXY (xOf (targetRotation s) - SPEED) (yOf (targetRotation s)))
           else s in
  let s := if String.eqb (key e) "ArrowDown"
           then set_targetRotation s
                  (MkXY (xOf (targetRotation s) + SPEED) (yOf (targetRotation s)))
           else s in
  let s := if String.eqb (key e) "ArrowLeft"
           then set_targetRotation s
                  (MkXY (xOf (targetRotation s)) (yOf (targetRotation s) - SPEED))
           else s in
  let s := if String.eqb (key e) "ArrowRight"
           then set_targetRotation s
                  (MkXY (xOf (targetRotation s)) (yOf (targetRotation s) + SPEED))
           else s in
  with_self w s.

(** The guard of [render]: the seven handles it asks for. *)
Definition renderReady (t : ThreeRenderer) : bool :=
  match renderer t, camera t, renderTarget t with
  | Some _, Some _, Some _ =>
      scene t && cube t && postScene t && postCamera t
  | _, _, _ => false
  end.

Definition render (w : World) : World :=
  if renderReady (self w) then
    let s := self w in
    let s := set_currentRotation s
               (MkXY (xOf (currentRotation s)
                      + (xOf (targetRotation s) - xOf (currentRotation s)) * 0.1)
                     (yOf (currentRotation s))) in
    let s := set_currentRotation s
               (MkXY (xOf (currentRotation s))
                     (yOf (currentRotation s)
                      + (yOf (targetRotation s) - yOf (currentRotation s)) * 0.1)) in
    let s := if negb (isDragging s) then
               let s := set_targetRotation s
                          (MkXY (xOf (targetRotation s))
                                (yOf (targetRotation s) + 0.002)) in
               set_targetRotation s
                 (MkXY (xOf (targetRotation s) + 0.001) (yOf (targetRotation s)))
             else s in
    MkWorld s (cursor w) (containerListeners w) (windowListeners w)
            (MkXY (xOf (currentRotation s)) (yOf (currentRotation s)))
            (drawn w ++ [SceneToTarget; PostToScreen])
            (disposed w)
  else w.

Definition resize (b : Browser) (w : World) (width height : Q) : World :=
  with_self w (ThreeRenderer.resize b (self w) width height).

Definition destroy (w : World) : World :=
  let cl :=
    match container (self w) with
    | Some _ =>
        removeEventListener
          (removeEventListener (containerListeners w) ("mousedown"%string, OnMouseDown))
          ("mousemove"%string, OnMouseMove)
    | None => containerListeners w
    end in
  let wl := removeEventListener (windowListeners w) ("mouseup"%string, OnMouseUp) in
  let wl := removeEventListener wl ("keydown"%string, OnKeyDown) in
  let d := disposed w in
  let d := if geometry (self w) then d ++ [TheGeometry] else d in
  let d := if material (self w) then d ++ [TheMaterial] else d in
  let d := match renderer (self w) with Some _ => d ++ [TheRenderer] | None => d end in
  MkWorld (self w) (cursor w) cl wl (cubeRotation w) (drawn w) d.

(** What can happen to a page: the browser delivers an input event to the
    listeners registered for it, or a caller invokes a method. *)
Inductive Event : Type :=
| MouseDown (e : MouseEvent)
| MouseMove (e : MouseEvent)
| MouseUp
| KeyDown (e : KeyboardEvent)
| Resize (b : Browser) (width height : Q)
| Frame
| Destroy.

Definition listens (ls : list Listener) (l : Listener) : bool :=
  existsb (listener_eqb l) ls.

Definition step (w : World) (ev : Event) : World :=
  match ev with
  | MouseDown e =>
      if listens (containerListeners w) ("mousedown"%string, OnMouseDown)
      then onMouseDown w e else w
  | MouseMove e =>
      if listens (containerListeners w) ("mousemove"%string, OnMouseMove)
      then onMouseMove w e else w
  | MouseUp =>
      if listens (windowListeners w) ("mouseup"%string, OnMouseUp)
      then onMouseUp w else w
  | KeyDown e =>
      if listens (windowListeners w) ("keydown"%string, OnKeyDown)
      then onKeyDown w e else w
  | Resize b width height => resize b w width height
  | Frame => render w
  | Destroy => destroy w
  end.

Definition run (w : World) (evs : list Event) : World := fold_left step evs w.

(** Where the pointer is after a sequence of moves that started at [p]. *)
Definition pointerAfter (p : XY) (es : list MouseEvent) : XY :=
  fold_left (fun _ e => MkXY (clientX e) (clientY e)) es p.

(** The keys [onKeyDown] tests for, by the axis they turn. *)
Definition vertical (e : KeyboardEvent) : bool :=
  String.eqb (key e) "ArrowUp" || String.eqb (key e) "ArrowDown".
Definition horizontal (e : KeyboardEvent) : bool :=
  String.eqb (key e) "ArrowLeft" || String.eqb (key e) "ArrowRight".

End Interaction.

(** ** The uniforms of a renderer, bound for a draw *)

Module Binding.

Import ThreeRenderer.

(** The pipeline of a renderer is set up for device pixel ratio [dpr0]: the
    cell size is [10 * dpr0], the character count is 9, the textures are the
    scene buffer and a 576 by 64 atlas, and the resolution uniform is the
    size of the scene buffer. *)
Definition pipelineSetUp (dpr0 : Q) (t : ThreeRenderer) : Prop :=
  exists u atlas,
    asciiUniforms t = Some u
    /\ AsciiShaderThree.uFontSize u = 10 * dpr0
    /\ AsciiShaderThree.uCharCount u = 9
    /\ AsciiShaderThree.tDiffuse u = TargetTexture
    /\ AsciiShaderThree.tFont u = FontTexture atlas
    /\ Dom.width (AtlasThree.image atlas) = 576%Z
    /\ Dom.height (AtlasThree.image atlas) = 64%Z
    /\ bufferSize t
       = Some (x2 (AsciiShaderThree.uResolution u),
               y2 (AsciiShaderThree.uResolution u)).

(** An input event, delivered through a listener. *)
Definition isInput (ev : Interaction.Event) : bool :=
  match ev with
  | Interaction.MouseDown _ | Interaction.MouseMove _
  | Interaction.MouseUp | Interaction.KeyDown _ => true
  | _ => false
  end.

(** The page after a successful [initialize] and a mouse press. *)
Definition dragging : Interaction.World :=
  Interaction.onMouseDown
    (fst (Interaction.initialize retina Interaction.fresh page))
    (Interaction.MkMouseEvent 100 50).

(** The texture of a builder call that returned. *)
Definition returnedTexture (c : completion AtlasThree.Texture) : AtlasThree.Texture :=
  match c with
  | Return t => t
  | Throw _ =>
      AtlasThree.MkTexture createElement_canvas AtlasThree.LinearFilter
                           AtlasThree.LinearFilter true
  end.

End Binding.

Import Binding.

(** ** The dodecahedron mesh: [DodecahedronGeometry]

    [Math.sqrt(5)], [Math.PI], [Math.cos] and [Math.sin] are arguments; the
    rounding of the [Float32Array] is outside the model.  [None] stands for
    the [TypeError] of spreading or indexing [undefined]. *)

Module Dodecahedron.

Section Math.

Variable sqrt5 : Q.
Variable PI : Q.
Variable cos : Q -> Q.
Variable sin : Q -> Q.

Definition t : Q := (1 + sqrt5) / 2.
Definition r : Q := 1 / t.

Definition vertices : list (list Q) :=
  [ [-1; -1; -1]; [-1; -1; 1]; [-1; 1; -1]; [-1; 1; 1];
    [1; -1; -1]; [1; -1; 1]; [1; 1; -1]; [1; 1; 1];
    [0; -r; -t]; [0; -r; t]; [0; r; -t]; [0; r; t];
    [-r; -t; 0]; [-r; t; 0]; [r; -t; 0]; [r; t; 0];
    [-t; 0; -r]; [t; 0; -r]; [-t; 0; r]; [t; 0; r] ].

Definition faces : list (list nat) :=
  [ [14; 12; 0; 8; 4];
    [16; 2; 10; 8; 0];
    [0; 12; 1; 18; 16];
    [5; 9; 1; 12; 14];
    [1; 9; 11; 3; 18];
    [13; 15; 6; 10; 2];
    [3; 13; 2; 16; 18];
    [3; 11; 7; 15; 13];
    [4; 8; 10; 6; 17];
    [17; 19; 5; 14; 4];
    [19; 7; 11; 9; 5];
    [19; 17; 6; 15; 7] ]%nat.

(** [finalVertices.push(...vertices[vi], 0, 0)]; [vi] is [None] for
    [undefined]. *)
Definition pushVertex (vs : list (list Q)) (finalVertices : option (list Q))
    (vi : option nat) : option (list Q) :=
  match finalVertices, vi with
  | Some fv, Some i =>
      match nth_error vs i with
      | Some v => Some (fv ++ v ++ [0; 0])
      | None => None
      end
  | _, _ => None
  end.

(** The body of [for (const face of faces)]: the fan 0-1-2, 0-2-3, 0-3-4. *)
Definition pushFace (vs : list (list Q)) (finalVertices : option (list Q))
    (face : list nat) : option (list Q) :=
  let v0 := nth_error face 0 in
  fold_left
    (fun fv k =>
       let vA := nth_error face k in
       let vB := nth_error face (k + 1) in
       fold_left (pushVertex vs) [v0; vA; vB] fv)
    [1; 2; 3]%nat finalVertices.

(** [floatArray[i] = f(floatArray[i])]; a write outside the array is
    dropped. *)
Fixpoint update (floatArray : list Q) (i : nat) (f : Q -> Q) : list Q :=
  match floatArray, i with
  | [], _ => []
  | x :: xs, O => f x :: xs
  | x :: xs, S j => x :: update xs j f
  end.

(** [for (let i = 0; i < floatArray.length; i += 5)] scaling the position *)
Definition scalePositions (scale : Q) (floatArray : list Q) : list Q :=
  fold_left
    (fun a i =>
       let a := update a i (fun x => x * scale) in
       let a := update a (i + 1) (fun x => x * scale) in
       update a (i + 2) (fun x => x * scale))
    (map (fun j => 5 * j)%nat (seq 0 ((List.length floatArray + 4) / 5)))
    floatArray.

(** A [Map<number, number[]>], newest entry first; a key is [None] for
    [undefined]. *)
Definition UvMap : Type := list (option nat * (Q * Q)).

Definition key_eqb (a b : option nat) : bool :=
  match a, b with
  | Some x, Some y => Nat.eqb x y
  | None, None => true
  | _, _ => false
  end.

Definition uvMap_set (m : UvMap) (k : option nat) (v : Q * Q) : UvMap :=
  (k, v) :: m.

Fixpoint uvMap_get (m : UvMap) (k : option nat) : option (Q * Q) :=
  match m with
  | [] => None
  | (k', v) :: rest => if key_eqb k k' then Some v else uvMap_get rest k
  end.

(** The texture coordinate of corner [k] of a face. *)
Definition cornerUv (k : nat) : Q * Q :=
  let angle := inject_Z (Z.of_nat k) / 5 * PI * 2 - PI / 2 in
  (0.5 + 0.5 * cos angle, 0.5 + 0.5 * sin angle).

(** The body of [for (let f = 0; f < faces.length; f++)]. *)
Definition patchFace (floatArray : option (list Q)) (f : nat)
    (faceVerts : list nat) : option (list Q) :=
  let baseIndex := (f * 9 * 5)%nat in
  let uvMap :=
    fold_left (fun m k => uvMap_set m (nth_error faceVerts k) (cornerUv k))
              (seq 0 5) [] in
  let pushedIndices :=
    [ nth_error faceVerts 0; nth_error faceVerts 1; nth_error faceVerts 2;
      nth_error faceVerts 0; nth_error faceVerts 2; nth_error faceVerts 3;
      nth_error faceVerts 0; nth_error faceVerts 3; nth_error faceVerts 4 ]%nat in
  fold_left
    (fun a k =>
       match a with
       | None => None
       | Some arr =>
           let idx := (baseIndex + k * 5)%nat in
           match uvMap_get uvMap (nth k pushedIndices None) with
           | None => None
           | Some uv =>
               let arr := update arr (idx + 3) (fun _ => fst uv) in
               Some (update arr (idx + 4) (fun _ => snd uv))
           end
       end)
    (seq 0 9) floatArray.

(** The [uvMap] and the [pushedIndices] that [patchFace] builds for a
    face. *)
Definition uvMapOf (faceVerts : list nat) : UvMap :=
  fold_left (fun m k => uvMap_set m (nth_error faceVerts k) (cornerUv k))
            (seq 0 5) [].

Definition pushedIndicesOf (faceVerts : list nat) : list (option nat) :=
  [ nth_error faceVerts 0; nth_error faceVerts 1; nth_error faceVerts 2;
    nth_error faceVerts 0; nth_error faceVerts 2; nth_error faceVerts 3;
    nth_error faceVerts 0; nth_error faceVerts 3; nth_error faceVerts 4 ]%nat.

(** The algorithm of [generateDodecahedron] over a vertex and a face
    table. *)
Definition generate (vs : list (list Q)) (fs : list (list nat))
  : option (list Q) :=
  let finalVertices := fold_left (pushFace vs) fs (Some []) in
  let scale := 0.8 in
  match finalVertices with
  | None => None
  | Some finalVertices =>
      let floatArray := scalePositions scale finalVertices in
      fold_left (fun a f => patchFace a f (nth f fs []))
                (seq 0 (List.length fs)) (Some floatArray)
  end.

Definition generateDodecahedron : option (list Q) := generate vertices faces.

Definition getVertices : option (list Q) := generateDodecahedron.

(** Vertex [j] of a buffer of five floats per vertex. *)
Definition vertexRecord (buffer : list Q) (j : nat) : list Q :=
  firstn 5 (skipn (5 * j) buffer).

(** The order in which the fan of a pentagon uses its corners. *)
Definition fanCorners : list nat := [0; 1; 2; 0; 2; 3; 0; 3; 4]%nat.

(** The buffer written down at once: per face and fan corner the scaled
    position of the corner's vertex and the texture coordinate of the
    corner. *)
Definition layout (vs : list (list Q)) (fs : list (list nat)) : list Q :=
  flat_map
    (fun face =>
       flat_map
         (fun k =>
            map (fun x => x * 0.8) (nth (nth k face O) vs [])
            ++ [fst (cornerUv k); snd (cornerUv k)])
         fanCorners)
    fs.

(** The 45 floats of one face: after the triangulation, after the scaling
    and at the end. *)
Definition rawChunk (vs : list (list Q)) (face : list nat) : list Q :=
  flat_map (fun k => nth (nth k face O) vs [] ++ [0; 0]) fanCorners.

Definition scaledChunk (vs : list (list Q)) (face : list nat) : list Q :=
  flat_map (fun k => map (fun x => x * 0.8) (nth (nth k face O) vs []) ++ [0; 0])
           fanCorners.

Definition finalChunk (vs : list (list Q)) (face : list nat) : list Q :=
  flat_map
    (fun k =>
       map (fun x => x * 0.8) (nth (nth k face O) vs [])
       ++ [fst (cornerUv k); snd (cornerUv k)])
    fanCorners.

(** The three position writes of one round of the scaling loop, on one
    vertex record. *)
Definition scaleBlock (b : list Q) : list Q :=
  update (update (update b 0 (fun x => x * 0.8)) 1 (fun x => x * 0.8)) 2
         (fun x => x * 0.8).

(** The fan corners of all faces, in buffer order. *)
Definition corners (fs : list (list nat)) : list (list nat * nat) :=
  flat_map (fun face => map (fun k => (face, k)) fanCorners) fs.

End Math.

Definition getVertexCount : nat := 12 * 3 * 3.

(** The directed edges of a polygon, in its winding order. *)
Definition directedEdges (face : list nat) : list (nat * nat) :=
  match face with
  | [] => []
  | v :: rest => combine face (rest ++ [v])
  end.

Definition allDirectedEdges : list (nat * nat) := flat_map directedEdges faces.

Definition edge_eqb (e e' : nat * nat) : bool :=
  Nat.eqb (fst e) (fst e') && Nat.eqb (snd e) (snd e').

(** No edge of the list occurs twice. *)
Fixpoint distinctEdges (l : list (nat * nat)) : bool :=
  match l with
  | [] => true
  | e :: rest => negb (existsb (edge_eqb e) rest) && distinctEdges rest
  end.

(** Every edge of the list occurs in the other direction too. *)
Definition reversible (l : list (nat * nat)) : bool :=
  forallb (fun e => existsb (edge_eqb (snd e, fst e)) l) l.

(** In how many faces a vertex occurs. *)
Definition facesAt (v : nat) : nat :=
  List.length (filter (fun face => existsb (Nat.eqb v) face) faces).

(** A face table is well formed over [n] vertices: every face is a pentagon
    of five different indices below [n]. *)
Definition wellFormed (n : nat) (fs : list (list nat)) : Prop :=
  Forall (fun face => List.length face = 5%nat
                      /\ NoDup face
                      /\ Forall (fun v => (v < n)%nat) face) fs.

End Dodecahedron.

(** ** The fragment shaders in binary32 arithmetic

    The same two shader bodies, every operation rounded to the nearest
    binary32 number (24 bits of precision), for the places where rounding
    decides.  Literals are the nearest binary32 numbers to their decimal
    values. *)

Module Binary32.

Definition prec : Z := 24%Z.
Definition emax : Z := 128%Z.

Definition f32 : Type := spec_float.

(** The whole number [z], and [m * 2^e]. *)
Definition of_Z (z : Z) : f32 := binary_normalize prec emax z 0%Z false.
Definition scaled (m e : Z) : f32 := binary_normalize prec emax m e false.

Definition add (x y : f32) : f32 := SFadd prec emax x y.
Definition sub (x y : f32) : f32 := SFsub prec emax x y.
Definition mul (x y : f32) : f32 := SFmul prec emax x y.
Definition div (x y : f32) : f32 := SFdiv prec emax x y.

Definition ltb (x y : f32) : bool := SFltb x y.
Definition leb (x y : f32) : bool := SFleb x y.

(** The decimal literal [n / d]. *)
Definition literal (n d : Z) : f32 := div (of_Z n) (of_Z d).

(** [floor(x)]; zeros, infinities and NaN are returned as they are. *)
Definition floor (x : f32) : f32 :=
  match x with
  | S754_finite s m e =>
      let n := if s then Zneg m else Zpos m in
      let z := if (0 <=? e)%Z then (n * 2 ^ e)%Z else (n / 2 ^ (- e))%Z in
      binary_normalize prec emax z 0%Z s
  | _ => x
  end.

(** [fract(x) = x - floor(x)] *)
Definition fract (x : f32) : f32 := sub x (floor x).

Record vec2f : Type := Vec2f { fx2 : f32; fy2 : f32 }.
Record vec3f : Type := Vec3f { fx3 : f32; fy3 : f32; fz3 : f32 }.
Record vec4f : Type := Vec4f { fr4 : f32; fg4 : f32; fb4 : f32; fa4 : f32 }.

Definition rgbf (c : vec4f) : vec3f := Vec3f (fr4 c) (fg4 c) (fb4 c).
Definition vec4f_of (v : vec3f) (w : f32) : vec4f :=
  Vec4f (fx3 v) (fy3 v) (fz3 v) w.

Definition floor2f (v : vec2f) : vec2f := Vec2f (floor (fx2 v)) (floor (fy2 v)).
Definition fract2f (v : vec2f) : vec2f := Vec2f (fract (fx2 v)) (fract (fy2 v)).
Definition div2sf (v : vec2f) (s : f32) : vec2f :=
  Vec2f (div (fx2 v) s) (div (fy2 v) s).
Definition mul2f (v w : vec2f) : vec2f :=
  Vec2f (mul (fx2 v) (fx2 w)) (mul (fy2 v) (fy2 w)).
Definition div2f (v w : vec2f) : vec2f :=
  Vec2f (div (fx2 v) (fx2 w)) (div (fy2 v) (fy2 w)).
Definition mul3sf (v : vec3f) (s : f32) : vec3f :=
  Vec3f (mul (fx3 v) s) (mul (fy3 v) s) (mul (fz3 v) s).

Definition dotf (v w : vec3f) : f32 :=
  add (add (mul (fx3 v) (fx3 w)) (mul (fy3 v) (fy3 w))) (mul (fz3 v) (fz3 w)).

(** The locals of the composite algorithm, in binary32. *)
Record Locals32 : Type := MkLocals32 {
  gridDims32 : vec2f;
  cellUv32 : vec2f;
  sceneColor32 : vec4f;
  luminance32 : f32;
  charIndex32 : f32;
  uvInCell32 : vec2f;
  fontU32 : f32;
  fontV32 : f32;
  fontColor32 : vec4f
}.


End Binary32.

(** [AsciiShader.fragmentShader] in binary32 *)

Module AsciiShaderThree32.

Import Binary32.

Record Uniforms : Type := MkUniforms {
  tDiffuse : vec2f -> vec4f;
  tFont : vec2f -> vec4f;
  uCharCount : f32;
  uResolution : vec2f;
  uFontSize : f32;
  uColor : vec3f;
  uBgColor : vec3f
}.

Definition texture2D (s : vec2f -> vec4f) (p : vec2f) : vec4f := s p.

Definition fragmentLocals (u : Uniforms) (vUv : vec2f) : Locals32 :=
  let gridDims := div2sf (uResolution u) (uFontSize u) in
  let cellUv := div2f (floor2f (mul2f vUv gridDims)) gridDims in
  let sceneColor := texture2D (tDiffuse u) cellUv in
  let luminance :=
    sub (of_Z 1)
        (dotf (rgbf sceneColor)
              (Vec3f (literal 299 1000) (literal 587 1000) (literal 114 1000))) in
  let charIndex := floor (mul luminance (sub (uCharCount u) (of_Z 1))) in
  let uvInCell := fract2f (mul2f vUv gridDims) in
  let fontU := div (add charIndex (fx2 uvInCell)) (uCharCount u) in
  let fontV := fy2 uvInCell in
  let fontColor := texture2D (tFont u) (Vec2f fontU fontV) in
  MkLocals32 gridDims cellUv sceneColor luminance charIndex uvInCell
             fontU fontV fontColor.

Definition fragmentShader (u : Uniforms) (vUv : vec2f) : vec4f :=
  let l := fragmentLocals u vUv in
  vec4f_of (uColor u) (mul (fr4 (fontColor32 l)) (fa4 (sceneColor32 l))).

End AsciiShaderThree32.

(** [asciiFragmentShader] in binary32 *)

Module AsciiShaderGpu32.

Import Binary32.

Record AsciiParams : Type := MkAsciiParams {
  uCharCount : f32;
  uFontSize : f32;
  uResolution : vec2f;
  uColor : vec3f;
  uBgColor : vec3f
}.

Definition textureSample (t : vec2f -> vec4f) (s : AsciiShaderGpu.sampler)
    (p : vec2f) : vec4f := t p.

Definition asciiFragmentLocals (tDiffuse tFont : vec2f -> vec4f)
    (sSampler : AsciiShaderGpu.sampler) (params : AsciiParams) (uv : vec2f)
  : Locals32 :=
  let gridDims := div2sf (uResolution params) (uFontSize params) in
  let cellUv := div2f (floor2f (mul2f uv gridDims)) gridDims in
  let sceneColor := textureSample tDiffuse sSampler cellUv in
  let luminance :=
    sub (of_Z 1)
        (dotf (rgbf sceneColor)
              (Vec3f (literal 299 1000) (literal 587 1000) (literal 114 1000))) in
  let charIndex := floor (mul luminance (sub (uCharCount params) (of_Z 1))) in
  let uvInCell := fract2f (mul2f uv gridDims) in
  let fontU := div (add charIndex (fx2 uvInCell)) (uCharCount params) in
  let fontV := fy2 uvInCell in
  let fontColor := textureSample tFont sSampler (Vec2f fontU fontV) in
  MkLocals32 gridDims cellUv sceneColor luminance charIndex uvInCell
             fontU fontV fontColor.

Definition asciiFragmentShader (tDiffuse tFont : vec2f -> vec4f)
    (sSampler : AsciiShaderGpu.sampler) (params : AsciiParams) (uv : vec2f)
  : vec4f :=
  let l := asciiFragmentLocals tDiffuse tFont sSampler params uv in
  vec4f_of (mul3sf (rgbf (sceneColor32 l)) (fr4 (fontColor32 l)))
           (mul (fa4 (sceneColor32 l)) (fr4 (fontColor32 l))).

End AsciiShaderGpu32.

(** ** Binary32 inputs *)

Module Samples32.

Import Binary32.

(** A pass of a backend over a scene of one colour and a fully inked atlas:
    640 by 480 pixels, cells of 10 pixels, nine characters. *)
Definition flatPass32 (k : Backend) (scene : vec4f) (at_uv : vec2f) : Locals32 :=
  let ink := Vec4f (of_Z 1) (of_Z 1) (of_Z 1) (of_Z 1) in
  let res := Vec2f (of_Z 640) (of_Z 480) in
  let white := Vec3f (of_Z 1) (of_Z 1) (of_Z 1) in
  let black := Vec3f (of_Z 0) (of_Z 0) (of_Z 0) in
  match k with
  | Three =>
      AsciiShaderThree32.fragmentLocals
        (AsciiShaderThree32.MkUniforms (fun _ => scene) (fun _ => ink)
           (of_Z 9) res (of_Z 10) white black) at_uv
  | TypeGpu =>
      AsciiShaderGpu32.asciiFragmentLocals (fun _ => scene) (fun _ => ink)
        AsciiShaderGpu.SSampler
        (AsciiShaderGpu32.MkAsciiParams (of_Z 9) (of_Z 10) res white black) at_uv
  end.


(** Black, and black with a blue channel of [2^-24]. *)
Definition black32 : vec4f := Vec4f (of_Z 0) (of_Z 0) (of_Z 0) (of_Z 1).

(** The last binary32 position before the right edge of the first cell:
    [uv.x = (1 - 2^-24) / 64]. *)
Definition cellEdge32 : vec2f :=
  Vec2f (div (scaled (2 ^ 24 - 1) (-24)) (of_Z 64)) (literal 1 2).

End Samples32.

Import Samples32.

(** ** More inputs of the renderer shell *)

Module Pages.

Import ThreeRenderer.

(** What a builder has painted, when it returned. *)
Definition paintedBy (k : Backend) (b : Browser) : option (list DrawCmd) :=
  match k with
  | Three =>
      match AtlasThree.createAsciiTexture b with
      | Return t => Some (painted (AtlasThree.image t))
      | Throw _ => None
      end
  | TypeGpu =>
      match AtlasGpu.createAsciiTexture b with
      | Return g =>
          match AtlasGpu.contents g with
          | Some (cv, _) => Some (painted cv)
          | None => None
          end
      | Throw _ => None
      end
  end.

(** The page during a drag that has moved the pointer. *)
Definition dragged : Interaction.World :=
  Interaction.onMouseMove dragging (Interaction.MkMouseEvent 130 90).

End Pages.

Import Pages.

(** * Properties *)

(** ** Facts about [floor] and [fract] *)

Lemma floor_le (x : Q) : floor x <= x.
Proof. unfold floor. apply Qfloor_le. Qed.

Lemma floor_lt (x : Q) : x < floor x + 1.
Proof.
  unfold floor. pose proof (Qlt_floor x) as H.
  rewrite inject_Z_plus in H. exact H.
Qed.

Lemma floor_mono (x y : Q) : x <= y -> floor x <= floor y.
Proof.
  intros H. unfold floor. rewrite <- Zle_Qle. now apply Qfloor_resp_le.
Qed.

Lemma floor_nonneg (x : Q) : 0 <= x -> 0 <= floor x.
Proof.
  intros H. change 0 with (floor 0). now apply floor_mono.
Qed.

Lemma floor_eq (x : Q) (z : Z) :
  inject_Z z <= x -> x < inject_Z z + 1 -> floor x = inject_Z z.
Proof.
  intros Hlo Hhi. unfold floor. f_equal.
  apply Qfloor_resp_le in Hlo. rewrite Qfloor_Z in Hlo.
  assert (Hup : (Qfloor x < z + 1)%Z).
  { rewrite Zlt_Qlt, inject_Z_plus.
    apply Qle_lt_trans with x; [apply Qfloor_le | exact Hhi]. }
  lia.
Qed.

Lemma fract_range (x : Q) : 0 <= fract x < 1.
Proof.
  unfold fract. pose proof (floor_le x). pose proof (floor_lt x).
  split; lra.
Qed.

(** ** Facts about the locals of a pass *)

Lemma luminance_brightness (k : Backend) (i : PassInput) :
  luminance (passLocals k i) = 1 - brightness (passLocals k i).
Proof. destruct k; reflexivity. Qed.

Lemma charIndex_def (k : Backend) (i : PassInput) :
  charIndex (passLocals k i)
  = floor (luminance (passLocals k i) * (charCount i - 1)).
Proof. destruct k; reflexivity. Qed.

Lemma fontU_def (k : Backend) (i : PassInput) :
  fontU (passLocals k i)
  = (charIndex (passLocals k i) + x2 (uvInCell (passLocals k i))) / charCount i.
Proof. destruct k; reflexivity. Qed.

Lemma fontV_def (k : Backend) (i : PassInput) :
  fontV (passLocals k i) = y2 (uvInCell (passLocals k i)).
Proof. destruct k; reflexivity. Qed.

Lemma uvInCell_range (k : Backend) (i : PassInput) :
  0 <= x2 (uvInCell (passLocals k i)) < 1
  /\ 0 <= y2 (uvInCell (passLocals k i)) < 1.
Proof. destruct k; split; apply fract_range. Qed.

Lemma brightness_range (l : Locals) :
  unit_rgb (sceneColor l) -> 0 <= brightness l <= 1.
Proof.
  unfold unit_rgb, brightness, dot, rgb. simpl.
  intros (Hr & Hg & Hb). split; lra.
Qed.

(** The index is between 0 and [N - 1] as soon as the luminance is in the
    unit interval and there is at least one character. *)
Lemma charIndex_bounds (k : Backend) (i : PassInput) :
  0 <= luminance (passLocals k i) <= 1 -> 1 <= charCount i ->
  0 <= charIndex (passLocals k i) <= charCount i - 1.
Proof.
  intros [Hlo Hhi] HN. rewrite charIndex_def.
  set (lum := luminance (passLocals k i)) in *.
  split.
  - apply floor_nonneg. apply Qmult_le_0_compat; lra.
  - apply Qle_trans with (lum * (charCount i - 1)); [apply floor_le|].
    assert (H : lum * (charCount i - 1) <= 1 * (charCount i - 1)).
    { apply Qmult_le_compat_r; lra. }
    lra.
Qed.

(** ** The character index *)

(** C1. For every luminance in [[0,1]] and every character count [N >= 2],
    the character index [floor(luminance * (N - 1))] that the composite pass
    of either backend computes lies in [[0, N-1]]. *)
Theorem charIndex_in_range (k : Backend) (i : PassInput) :
  0 <= luminance (passLocals k i) <= 1 ->
  2 <= charCount i ->
  charIndex (passLocals k i)
    = floor (luminance (passLocals k i) * (charCount i - 1))
  /\ 0 <= charIndex (passLocals k i) <= charCount i - 1.
Proof.
  intros Hlum HN. split.
  - apply charIndex_def.
  - apply charIndex_bounds; [exact Hlum | lra].
Qed.

Lemma charIndex_in_range_witness :
  charIndex (passLocals Three greyInput)
    = floor (luminance (passLocals Three greyInput) * (charCount greyInput - 1))
  /\ 0 <= charIndex (passLocals Three greyInput) <= charCount greyInput - 1.
Proof.
  apply (charIndex_in_range Three greyInput).
  - split; vm_compute; discriminate.
  - vm_compute; discriminate.
Defined.





(** C3. With the ramp [".:-=+*%#@"] and [N = 9]: a black scene sample has
    inverted luminance 1 and character index 8, the glyph [@]; a white scene
    sample has inverted luminance 0 and character index 0, the glyph [.]. *)
Theorem black_and_white_glyphs (k : Backend) (i : PassInput) :
  charCount i = 9 ->
  rampOf k = ".:-=+*%#@"%string
  /\ (r4 (sceneColor (passLocals k i)) == 0
      /\ g4 (sceneColor (passLocals k i)) == 0
      /\ b4 (sceneColor (passLocals k i)) == 0 ->
      luminance (passLocals k i) == 1
      /\ charIndex (passLocals k i) = 8
      /\ glyphOf k (passLocals k i) = "@"%string)
  /\ (r4 (sceneColor (passLocals k i)) == 1
      /\ g4 (sceneColor (passLocals k i)) == 1
      /\ b4 (sceneColor (passLocals k i)) == 1 ->
      luminance (passLocals k i) == 0
      /\ charIndex (passLocals k i) = 0
      /\ glyphOf k (passLocals k i) = "."%string).
Proof.
  intros HN. split; [destruct k; reflexivity|].
  assert (Hb : brightness (passLocals k i)
               = r4 (sceneColor (passLocals k i)) * 0.299
                 + g4 (sceneColor (passLocals k i)) * 0.587
                 + b4 (sceneColor (passLocals k i)) * 0.114) by reflexivity.
  pose proof (luminance_brightness k i) as HL.
  split; intros (Hr & Hg & Hbl).
  - assert (Hlum : luminance (passLocals k i) == 1).
    { rewrite HL, Hb, Hr, Hg, Hbl. lra. }
    assert (Hidx : charIndex (passLocals k i) = 8).
    { rewrite charIndex_def, HN.
      apply (floor_eq _ 8); rewrite Hlum; vm_compute; congruence. }
    repeat split; try assumption.
    unfold glyphOf. rewrite Hidx. destruct k; reflexivity.
  - assert (Hlum : luminance (passLocals k i) == 0).
    { rewrite HL, Hb, Hr, Hg, Hbl. lra. }
    assert (Hidx : charIndex (passLocals k i) = 0).
    { rewrite charIndex_def, HN.
      apply (floor_eq _ 0); rewrite Hlum; vm_compute; congruence. }
    repeat split; try assumption.
    unfold glyphOf. rewrite Hidx. destruct k; reflexivity.
Qed.

Lemma black_and_white_glyphs_witness :
  (luminance (passLocals Three blackInput) == 1
   /\ charIndex (passLocals Three blackInput) = 8
   /\ glyphOf Three (passLocals Three blackInput) = "@"%string)
  /\ (luminance (passLocals TypeGpu whiteInput) == 0
      /\ charIndex (passLocals TypeGpu whiteInput) = 0
      /\ glyphOf TypeGpu (passLocals TypeGpu whiteInput) = "."%string).
Proof.
  split.
  - apply (proj1 (proj2 (black_and_white_glyphs Three blackInput eq_refl))).
    repeat split; reflexivity.
  - apply (proj2 (proj2 (black_and_white_glyphs TypeGpu whiteInput eq_refl))).
    repeat split; reflexivity.
Defined.

(** ** The final colour *)

(** C4, as amended.  With [fontColor] the atlas sample at [(fontU, fontV)]
    and [sceneColor] the scene sample at the cell corner [cellUv]: the
    typegpu shader writes [sceneColor.rgb * fontColor.r] with alpha
    [sceneColor.a * fontColor.r]; the three.js shader writes the text colour
    [uColor] itself, not multiplied by the atlas sample, with alpha
    [fontColor.r * sceneColor.a]. *)
Theorem final_color (i : PassInput) :
  let lg := passLocals TypeGpu i in
  let lt := passLocals Three i in
  fontColor lg = fontAtlas i (Vec2 (fontU lg) (fontV lg))
  /\ sceneColor lg = sceneTexture i (cellUv lg)
  /\ fontColor lt = fontAtlas i (Vec2 (fontU lt) (fontV lt))
  /\ sceneColor lt = sceneTexture i (cellUv lt)
  /\ passColor TypeGpu i
     = Vec4 (r4 (sceneColor lg) * r4 (fontColor lg))
            (g4 (sceneColor lg) * r4 (fontColor lg))
            (b4 (sceneColor lg) * r4 (fontColor lg))
            (a4 (sceneColor lg) * r4 (fontColor lg))
  /\ passColor Three i
     = Vec4 (x3 (textColor i)) (y3 (textColor i)) (z3 (textColor i))
            (r4 (fontColor lt) * a4 (sceneColor lt)).
Proof. repeat split. Qed.

(** C4 as stated fails: where the atlas has no ink the three.js shader still
    writes the full text colour in the red channel, not the text colour
    times the atlas sample. *)
Lemma three_rgb_not_modulated :
  ~ (r4 (passColor Three inklessInput)
     == x3 (textColor inklessInput)
        * r4 (fontColor (passLocals Three inklessInput))).
Proof. vm_compute. discriminate. Qed.

(** ** The two backends *)

(** C5. On the same textures, resolution, cell size, character count and
    [uv], the GLSL and the WGSL fragment shader compute the same locals up to
    the final colour: [gridDims], [cellUv], the scene sample, the inverted
    luminance, [charIndex], [uvInCell], [fontU], [fontV] and the atlas
    sample. *)
Theorem backends_agree (scene atlas : vec2 -> vec4) (n : Q) (res : vec2)
    (cell : Q) (color bg color' bg' : vec3) (s : AsciiShaderGpu.sampler)
    (at_uv : vec2) :
  AsciiShaderThree.fragmentLocals
    (AsciiShaderThree.MkUniforms scene atlas n res cell color bg) at_uv
  = AsciiShaderGpu.asciiFragmentLocals scene atlas s
      (AsciiShaderGpu.MkAsciiParams n cell res color' bg') at_uv.
Proof. reflexivity. Qed.

(** ** Coverage *)

(** C6. If the scene sample at the cell's sample point has alpha 0, the
    colour either backend writes has alpha 0, whatever the atlas sample. *)
Theorem uncovered_is_transparent (k : Backend) (i : PassInput) :
  a4 (sceneColor (passLocals k i)) == 0 ->
  a4 (passColor k i) == 0.
Proof.
  intros H. destruct k.
  - change (a4 (passColor Three i))
      with (r4 (fontColor (passLocals Three i))
            * a4 (sceneColor (passLocals Three i))).
    rewrite H. ring.
  - change (a4 (passColor TypeGpu i))
      with (a4 (sceneColor (passLocals TypeGpu i))
            * r4 (fontColor (passLocals TypeGpu i))).
    rewrite H. ring.
Qed.

Lemma uncovered_is_transparent_witness :
  a4 (passColor Three uncoveredInput) == 0
  /\ a4 (passColor TypeGpu uncoveredInput) == 0.
Proof.
  split.
  - apply (uncovered_is_transparent Three uncoveredInput). reflexivity.
  - apply (uncovered_is_transparent TypeGpu uncoveredInput). reflexivity.
Defined.

(** ** Addressing the atlas *)

(** C10, as amended.  For [uv] in the unit square, a scene sample with
    colour channels in [[0,1]], at least one character, a positive cell
    size and a resolution that is not negative, the atlas coordinates of
    either backend satisfy [0 <= fontU <= 1] and [0 <= fontV < 1]; the
    right end 1 of the strip is not excluded (see below). *)
Theorem atlas_coordinates_in_range (k : Backend) (i : PassInput) :
  0 <= x2 (uv i) < 1 ->
  0 <= y2 (uv i) < 1 ->
  unit_rgb (sceneColor (passLocals k i)) ->
  1 <= charCount i ->
  0 < cellSizePixels i ->
  0 <= x2 (resolution i) ->
  0 <= y2 (resolution i) ->
  0 <= fontU (passLocals k i) <= 1 /\ 0 <= fontV (passLocals k i) < 1.
Proof.
  intros _ _ Hrgb HN _ _ _.
  destruct (uvInCell_range k i) as [Hx Hy].
  pose proof (brightness_range _ Hrgb) as Hb.
  pose proof (luminance_brightness k i) as HL.
  assert (Hlum : 0 <= luminance (passLocals k i) <= 1) by (rewrite HL; lra).
  pose proof (charIndex_bounds k i Hlum HN) as Hci.
  split.
  - rewrite fontU_def.
    set (c := charIndex (passLocals k i)) in *.
    set (fx := x2 (uvInCell (passLocals k i))) in *.
    assert (Hpos : 0 < charCount i) by lra.
    split.
    + apply Qle_shift_div_l; [exact Hpos | lra].
    + apply Qle_shift_div_r; [exact Hpos | lra].
  - rewrite fontV_def. exact Hy.
Qed.

Lemma atlas_coordinates_in_range_witness :
  0 <= fontU (passLocals Three greyInput) <= 1
  /\ 0 <= fontV (passLocals Three greyInput) < 1.
Proof.
  apply (atlas_coordinates_in_range Three greyInput).
  - split; vm_compute; [discriminate | reflexivity].
  - split; vm_compute; [discriminate | reflexivity].
  - repeat split; vm_compute; discriminate.
  - vm_compute; discriminate.
  - vm_compute; reflexivity.
  - vm_compute; discriminate.
  - vm_compute; discriminate.
Defined.

(** C10 as stated fails in the arithmetic of the shaders: over a black
    scene, at [uv = ((1 - 2^-24) / 64, 1/2)], which lies in the unit
    square, the position inside the cell is [1 - 2^-24], the character
    index is 8, the sum [8 + (1 - 2^-24)] rounds to [9.0] in binary32 and
    [fontU = 9.0 / 9.0] is [1.0], not below 1, in either backend. *)
Lemma atlas_column_rounds_to_one :
  (Binary32.leb (Binary32.of_Z 0) (Binary32.fx2 cellEdge32) = true
   /\ Binary32.ltb (Binary32.fx2 cellEdge32) (Binary32.of_Z 1) = true
   /\ Binary32.leb (Binary32.of_Z 0) (Binary32.fy2 cellEdge32) = true
   /\ Binary32.ltb (Binary32.fy2 cellEdge32) (Binary32.of_Z 1) = true)
  /\ Binary32.rgbf black32
     = Binary32.Vec3f (Binary32.of_Z 0) (Binary32.of_Z 0) (Binary32.of_Z 0)
  /\ (Binary32.charIndex32 (flatPass32 Three black32 cellEdge32) = Binary32.of_Z 8
      /\ Binary32.fx2 (Binary32.uvInCell32 (flatPass32 Three black32 cellEdge32))
         = Binary32.scaled (2 ^ 24 - 1) (-24)
      /\ Binary32.fontU32 (flatPass32 Three black32 cellEdge32) = Binary32.of_Z 1
      /\ Binary32.ltb (Binary32.fontU32 (flatPass32 Three black32 cellEdge32))
                      (Binary32.of_Z 1) = false)
  /\ (Binary32.charIndex32 (flatPass32 TypeGpu black32 cellEdge32) = Binary32.of_Z 8
      /\ Binary32.fx2 (Binary32.uvInCell32 (flatPass32 TypeGpu black32 cellEdge32))
         = Binary32.scaled (2 ^ 24 - 1) (-24)
      /\ Binary32.fontU32 (flatPass32 TypeGpu black32 cellEdge32) = Binary32.of_Z 1
      /\ Binary32.ltb (Binary32.fontU32 (flatPass32 TypeGpu black32 cellEdge32))
                      (Binary32.of_Z 1) = false).
Proof.
  vm_compute. repeat split.
Qed.


(** ** Resizing *)

Import ThreeRenderer.

Lemma initialized_parts (this : ThreeRenderer) :
  initialized this = true ->
  exists r c rt pm,
    renderer this = Some r /\ camera this = Some c
    /\ renderTarget this = Some rt /\ postMaterial this = Some pm.
Proof.
  unfold initialized.
  destruct (renderer this) as [r|], (camera this) as [c|],
           (renderTarget this) as [rt|], (postMaterial this) as [pm|];
    try discriminate.
  intros _. now exists r, c, rt, pm.
Qed.

Lemma resize_uninitialized (b : Browser) (this : ThreeRenderer) (w h : Q) :
  initialized this = false -> resize b this w h = this.
Proof.
  unfold initialized, resize.
  destruct (renderer this) as [r|], (camera this) as [c|],
           (renderTarget this) as [rt|], (postMaterial this) as [pm|];
    try discriminate; reflexivity.
Qed.

(** What [resize] writes on a renderer that holds all four handles. *)
Lemma resize_initialized (b : Browser) (this : ThreeRenderer) (w h : Q) :
  initialized this = true ->
  bufferSize (resize b this w h)
    = Some (w * devicePixelRatio b, h * devicePixelRatio b)
  /\ exists u,
       asciiUniforms this = Some u
       /\ asciiUniforms (resize b this w h)
          = Some (set_uResolution u (w * devicePixelRatio b)
                                    (h * devicePixelRatio b)).
Proof.
  intros Hi. destruct (initialized_parts this Hi) as (r & c & rt & pm & Hr & Hc & Ht & Hp).
  unfold bufferSize, asciiUniforms, resize. rewrite Hr, Hc, Ht, Hp. cbn.
  split; [reflexivity|]. now exists (uniforms pm).
Qed.

(** C7.  A resize call with dimensions [(w, h)] on an initialized renderer
    (one that holds its WebGL renderer, camera, render target and post
    material, as every renderer does on which the page calls [resize]) sets
    the resolution uniform and the size of the intermediate scene buffer to
    [(w, h) * devicePixelRatio] and leaves [uFontSize], the character
    count, the text colour, the background colour and both texture
    uniforms as they were. *)
Theorem resize_sets_resolution_only (b : Browser) (this : ThreeRenderer)
    (w h : Q) :
  initialized this = true ->
  bufferSize (resize b this w h)
    = Some (w * devicePixelRatio b, h * devicePixelRatio b)
  /\ exists u u',
       asciiUniforms this = Some u
       /\ asciiUniforms (resize b this w h) = Some u'
       /\ AsciiShaderThree.uResolution u'
          = Vec2 (w * devicePixelRatio b) (h * devicePixelRatio b)
       /\ AsciiShaderThree.uFontSize u' = AsciiShaderThree.uFontSize u
       /\ AsciiShaderThree.uCharCount u' = AsciiShaderThree.uCharCount u
       /\ AsciiShaderThree.uColor u' = AsciiShaderThree.uColor u
       /\ AsciiShaderThree.uBgColor u' = AsciiShaderThree.uBgColor u
       /\ AsciiShaderThree.tFont u' = AsciiShaderThree.tFont u
       /\ AsciiShaderThree.tDiffuse u' = AsciiShaderThree.tDiffuse u.
Proof.
  intros Hi.
  destruct (resize_initialized b this w h Hi) as (Hb & u & Hu & Hu').
  split; [exact Hb|].
  exists u, (set_uResolution u (w * devicePixelRatio b) (h * devicePixelRatio b)).
  repeat split; assumption.
Qed.

Lemma resize_sets_resolution_only_witness :
  bufferSize (resize retina running 800 600)
    = Some (800 * devicePixelRatio retina, 600 * devicePixelRatio retina)
  /\ exists u u',
       asciiUniforms running = Some u
       /\ asciiUniforms (resize retina running 800 600) = Some u'
       /\ AsciiShaderThree.uResolution u'
          = Vec2 (800 * devicePixelRatio retina) (600 * devicePixelRatio retina)
       /\ AsciiShaderThree.uFontSize u' = AsciiShaderThree.uFontSize u
       /\ AsciiShaderThree.uCharCount u' = AsciiShaderThree.uCharCount u
       /\ AsciiShaderThree.uColor u' = AsciiShaderThree.uColor u
       /\ AsciiShaderThree.uBgColor u' = AsciiShaderThree.uBgColor u
       /\ AsciiShaderThree.tFont u' = AsciiShaderThree.tFont u
       /\ AsciiShaderThree.tDiffuse u' = AsciiShaderThree.tDiffuse u.
Proof.
  apply (resize_sets_resolution_only retina running 800 600). reflexivity.
Defined.

(** C8, as amended.  A resize call with a zero or negative width or height
    is handled like any other: on a renderer that holds all four handles the
    scene buffer and the resolution uniform are set to
    [(w, h) * devicePixelRatio] without clamping, so for a positive device
    pixel ratio a side of the buffer is zero or negative. *)
Theorem resize_does_not_clamp (b : Browser) (this : ThreeRenderer) (w h : Q) :
  initialized this = true ->
  w <= 0 \/ h <= 0 ->
  0 < devicePixelRatio b ->
  exists bw bh u',
    bufferSize (resize b this w h) = Some (bw, bh)
    /\ asciiUniforms (resize b this w h) = Some u'
    /\ bw = w * devicePixelRatio b
    /\ bh = h * devicePixelRatio b
    /\ AsciiShaderThree.uResolution u' = Vec2 bw bh
    /\ (bw <= 0 \/ bh <= 0).
Proof.
  intros Hi Hwh Hd.
  destruct (resize_initialized b this w h Hi) as (Hb & u & Hu & Hu').
  exists (w * devicePixelRatio b), (h * devicePixelRatio b),
         (set_uResolution u (w * devicePixelRatio b) (h * devicePixelRatio b)).
  repeat split; try assumption.
  destruct Hwh as [Hw | Hh]; [left | right].
  - setoid_replace 0 with (0 * devicePixelRatio b) by ring.
    apply Qmult_le_compat_r; lra.
  - setoid_replace 0 with (0 * devicePixelRatio b) by ring.
    apply Qmult_le_compat_r; lra.
Qed.

Lemma resize_does_not_clamp_witness :
  exists bw bh u',
    bufferSize (resize retina running 0 0) = Some (bw, bh)
    /\ asciiUniforms (resize retina running 0 0) = Some u'
    /\ bw = 0 * devicePixelRatio retina
    /\ bh = 0 * devicePixelRatio retina
    /\ AsciiShaderThree.uResolution u' = Vec2 bw bh
    /\ (bw <= 0 \/ bh <= 0).
Proof.
  apply (resize_does_not_clamp retina running 0 0).
  - reflexivity.
  - left. vm_compute. discriminate.
  - vm_compute. reflexivity.
Defined.

(** C8 as stated fails: resizing a running renderer to [0 x 0] is neither a
    no-op nor clamped to [1 x 1]; the buffer gets the size [0 x 0]. *)
Lemma resize_zero_is_stored :
  ~ (resize retina running 0 0 = running
     \/ exists bw bh,
          bufferSize (resize retina running 0 0) = Some (bw, bh)
          /\ 1 <= bw /\ 1 <= bh).
Proof.
  intros [Hsame | (bw & bh & Hb & Hw & _)].
  - apply (f_equal bufferSize) in Hsame. vm_compute in Hsame. discriminate.
  - vm_compute in Hb. injection Hb as <- <-. vm_compute in Hw. congruence.
Qed.

(** ** The font atlas builders *)

Lemma three_atlas_returns (b : Browser) :
  has2dContext b = true ->
  exists t,
    AtlasThree.createAsciiTexture b = Return t
    /\ Dom.width (AtlasThree.image t)
       = (Z.of_nat (String.length AsciiShaderThree.CHAR_SET) * 64)%Z
    /\ Dom.height (AtlasThree.image t) = 64%Z.
Proof.
  intros H. unfold AtlasThree.createAsciiTexture, getContext_2d. rewrite H.
  eexists. split; [reflexivity|]. split; reflexivity.
Qed.

Lemma gpu_atlas_returns (b : Browser) :
  has2dContext b = true ->
  exists t,
    AtlasGpu.createAsciiTexture b = Return t
    /\ AtlasGpu.size t
       = ((Z.of_nat (String.length AsciiShaderGpu.CHAR_SET) * 64)%Z, 64%Z, 1%Z).
Proof.
  intros H. unfold AtlasGpu.createAsciiTexture, getContext_2d. cbn. rewrite H.
  eexists. split; reflexivity.
Qed.

Lemma three_atlas_throws (b : Browser) :
  has2dContext b = false ->
  AtlasThree.createAsciiTexture b
  = Throw (MkError "Could not create 2D context for ASCII texture").
Proof.
  intros H. unfold AtlasThree.createAsciiTexture, getContext_2d. now rewrite H.
Qed.

Lemma gpu_atlas_throws (b : Browser) :
  has2dContext b = false ->
  AtlasGpu.createAsciiTexture b
  = Throw (MkError "Could not create 2D context for ASCII texture").
Proof.
  intros H. unfold AtlasGpu.createAsciiTexture, getContext_2d. cbn. now rewrite H.
Qed.

(** C9. Either font atlas builder throws exactly when the canvas gives no 2D
    context.  When it throws there is no texture: [initialize] leaves the
    renderer without post material, the script of [main.ts] ends on the
    uncaught error with no resize listener and no render loop, and the
    typegpu script starts no render loop on a failed [initialize].  When it
    returns, the atlas is [N * 64] wide and [64] high for the [N] characters
    of the ramp. *)
Theorem atlas_builder_outcome (b : Browser) :
  ((exists e, AtlasThree.createAsciiTexture b = Throw e)
   <-> has2dContext b = false)
  /\ ((exists e, AtlasGpu.createAsciiTexture b = Throw e)
      <-> has2dContext b = false)
  /\ if has2dContext b then
       (exists t,
          AtlasThree.createAsciiTexture b = Return t
          /\ Dom.width (AtlasThree.image t)
             = (Z.of_nat (String.length AsciiShaderThree.CHAR_SET) * 64)%Z
          /\ Dom.height (AtlasThree.image t) = 64%Z)
       /\ (exists t,
             AtlasGpu.createAsciiTexture b = Return t
             /\ AtlasGpu.size t
                = ((Z.of_nat (String.length AsciiShaderGpu.CHAR_SET) * 64)%Z,
                   64%Z, 1%Z))
     else
       (forall t, AtlasThree.createAsciiTexture b <> Return t)
       /\ (forall t, AtlasGpu.createAsciiTexture b <> Return t)
       /\ (forall this app,
             postMaterial (fst (initialize b this app)) = postMaterial this
             /\ snd (initialize b this app) <> None)
       /\ (forall app,
             Main.renderLoop (Main.main b app) = false
             /\ Main.resizeListener (Main.main b app) = false)
       /\ (forall e app,
             MainGpu.renderLoop (MainGpu.main (Throw e) app) = false).
Proof.
  destruct (has2dContext b) eqn:H.
  - destruct (three_atlas_returns b H) as (t & Ht & Htw).
    destruct (gpu_atlas_returns b H) as (g & Hg & Hgs).
    split; [|split].
    + split; [intros [e He]; congruence | discriminate].
    + split; [intros [e He]; congruence | discriminate].
    + split; [now exists t | now exists g].
  - pose proof (three_atlas_throws b H) as Ht.
    pose proof (gpu_atlas_throws b H) as Hg.
    split; [|split].
    + split; [reflexivity | intros _; eexists; exact Ht].
    + split; [reflexivity | intros _; eexists; exact Hg].
    + split; [intros t; rewrite Ht; discriminate|].
      split; [intros t; rewrite Hg; discriminate|].
      split; [|split].
      * intros this app. unfold initialize. rewrite Ht. cbn. split; [reflexivity | discriminate].
      * intros [app|]; [|split; reflexivity].
        unfold Main.main, initialize. rewrite Ht. split; reflexivity.
      * intros e [|]; reflexivity.
Qed.

(** What both builders paint: a black strip, then character [i] of the ramp
    centred at [x = i * 64 + 32], the middle of cell [i]. *)
Lemma atlas_painting (b : Browser) :
  has2dContext b = true ->
  let strip (ramp : string) :=
    FillRect "#000000" 0 0 576 64
    :: map (fun i => FillText "#ffffff" "bold 64px monospace" "center" "middle"
                              (charAt ramp i) (Z.of_nat i * 64 + 32)%Z 32%Z)
           (seq 0 9) in
  (exists t, AtlasThree.createAsciiTexture b = Return t
             /\ painted (AtlasThree.image t) = strip AsciiShaderThree.CHAR_SET)
  /\ (exists t, AtlasGpu.createAsciiTexture b = Return t
                /\ exists cv, AtlasGpu.contents t = Some (cv, (576, 64)%Z)
                              /\ painted cv = strip AsciiShaderGpu.CHAR_SET).
Proof.
  intros H strip. split.
  - unfold AtlasThree.createAsciiTexture, getContext_2d. rewrite H.
    eexists. split; reflexivity.
  - unfold AtlasGpu.createAsciiTexture, getContext_2d. cbn. rewrite H.
    eexists. split; [reflexivity|]. eexists. split; reflexivity.
Qed.

(** * Further properties of the composite pass *)





(** X4. For a whole character count [N >= 2] and a luminance in [[0,1]],
    the last ramp entry [N - 1] is chosen only by luminance 1: any luminance
    below 1 gives an index of at most [N - 2]. *)
Theorem last_glyph_only_at_one (k : Backend) (i : PassInput) (n : Z) :
  charCount i = inject_Z n ->
  (2 <= n)%Z ->
  0 <= luminance (passLocals k i) <= 1 ->
  (luminance (passLocals k i) == 1 ->
   charIndex (passLocals k i) = inject_Z (n - 1))
  /\ (luminance (passLocals k i) < 1 ->
      charIndex (passLocals k i) <= inject_Z (n - 2)).
Proof.
  intros HN Hn [Hlo Hhi].
  rewrite charIndex_def, HN.
  set (lum := luminance (passLocals k i)) in *.
  assert (Hn1 : inject_Z n - 1 == inject_Z (n - 1)).
  { unfold Zminus. rewrite inject_Z_plus. reflexivity. }
  assert (Hpos : 0 < inject_Z (n - 1)).
  { change 0 with (inject_Z 0). rewrite <- Zlt_Qlt. lia. }
  split; intros H.
  - apply floor_eq; rewrite H, Hn1; lra.
  - assert (Hlt : lum * (inject_Z n - 1) < inject_Z (n - 1)).
    { rewrite Hn1.
      setoid_replace (inject_Z (n - 1)) with (1 * inject_Z (n - 1)) at 2 by ring.
      apply Qmult_lt_compat_r; assumption. }
    unfold floor. rewrite <- Zle_Qle.
    assert (Hf : (Qfloor (lum * (inject_Z n - 1)) < n - 1)%Z).
    { rewrite Zlt_Qlt.
      apply Qle_lt_trans with (lum * (inject_Z n - 1)); [apply Qfloor_le | exact Hlt]. }
    lia.
Qed.

Lemma last_glyph_only_at_one_witness :
  (luminance (passLocals Three greyInput) == 1 ->
   charIndex (passLocals Three greyInput) = inject_Z (9 - 1))
  /\ (luminance (passLocals Three greyInput) < 1 ->
      charIndex (passLocals Three greyInput) <= inject_Z (9 - 2)).
Proof.
  apply (last_glyph_only_at_one Three greyInput 9).
  - reflexivity.
  - lia.
  - split; vm_compute; discriminate.
Defined.

(** X5. With a single character every fragment chooses index 0, whatever
    the scene sample, and the atlas is addressed at the position inside the
    cell. *)
Theorem single_glyph_ramp (k : Backend) (i : PassInput) :
  charCount i == 1 ->
  charIndex (passLocals k i) = 0
  /\ fontU (passLocals k i) == x2 (uvInCell (passLocals k i))
  /\ fontV (passLocals k i) = y2 (uvInCell (passLocals k i)).
Proof.
  intros HN.
  assert (Hc : charIndex (passLocals k i) = 0).
  { rewrite charIndex_def. apply (floor_eq _ 0); rewrite HN.
    - setoid_replace (luminance (passLocals k i) * (1 - 1)) with 0 by ring.
      apply Qle_refl.
    - setoid_replace (luminance (passLocals k i) * (1 - 1)) with 0 by ring.
      reflexivity. }
  split; [exact Hc|]. split; [|apply fontV_def].
  rewrite fontU_def, Hc, HN. field.
Qed.

Lemma single_glyph_ramp_witness :
  charIndex (passLocals TypeGpu oneGlyphInput) = 0
  /\ fontU (passLocals TypeGpu oneGlyphInput)
     == x2 (uvInCell (passLocals TypeGpu oneGlyphInput))
  /\ fontV (passLocals TypeGpu oneGlyphInput)
     = y2 (uvInCell (passLocals TypeGpu oneGlyphInput)).
Proof.
  apply (single_glyph_ramp TypeGpu oneGlyphInput). reflexivity.
Defined.



(** X7. On the same input the two backends write the same alpha; only the
    colour channels differ: the typegpu shader tints the glyph with the
    scene sample, the three.js shader with the text colour, whatever the
    scene and the atlas hold. *)
Theorem backends_same_alpha (i : PassInput) :
  a4 (passColor Three i) == a4 (passColor TypeGpu i)
  /\ rgb (passColor Three i)
     = Vec3 (x3 (textColor i)) (y3 (textColor i)) (z3 (textColor i))
  /\ rgb (passColor TypeGpu i)
     = mul3s (rgb (sceneColor (passLocals Three i)))
             (r4 (fontColor (passLocals Three i))).
Proof.
  split; [|split; reflexivity].
  change (a4 (passColor Three i))
    with (r4 (fontColor (passLocals Three i)) * a4 (sceneColor (passLocals Three i))).
  change (a4 (passColor TypeGpu i))
    with (a4 (sceneColor (passLocals Three i)) * r4 (fontColor (passLocals Three i))).
  ring.
Qed.

(** X8. The WGSL vertex shader maps the clip-space square [[-1,1]] x
    [[-1,1]] onto the unit square with the vertical axis flipped: [uv.x =
    (x + 1) / 2], [uv.y = (1 - y) / 2], both in [[0,1]], and the position is
    passed through at depth 0. *)
Theorem vertex_uv_in_unit_square (pos : vec2) :
  -1 <= x2 pos <= 1 ->
  -1 <= y2 pos <= 1 ->
  let out := AsciiVertexGpu.asciiVertexShader pos in
  AsciiVertexGpu.position out = Vec4 (x2 pos) (y2 pos) 0 1
  /\ x2 (AsciiVertexGpu.vertexUv out) == (x2 pos + 1) / 2
  /\ y2 (AsciiVertexGpu.vertexUv out) == (1 - y2 pos) / 2
  /\ 0 <= x2 (AsciiVertexGpu.vertexUv out) <= 1
  /\ 0 <= y2 (AsciiVertexGpu.vertexUv out) <= 1.
Proof.
  intros Hx Hy out. subst out.
  unfold AsciiVertexGpu.asciiVertexShader. cbn [AsciiVertexGpu.position AsciiVertexGpu.vertexUv x2 y2].
  split; [reflexivity|].
  assert (Ex : (x2 pos + 1) * 0.5 == (x2 pos + 1) / 2) by field.
  assert (Ey : 1 - (y2 pos + 1) * 0.5 == (1 - y2 pos) / 2) by field.
  assert (Bx : (x2 pos + 1) * 0.5 == 0.5 * x2 pos + 0.5) by ring.
  assert (By : 1 - (y2 pos + 1) * 0.5 == 0.5 - 0.5 * y2 pos) by ring.
  split; [exact Ex|]. split; [exact Ey|].
  split; [rewrite Bx | rewrite By]; split; lra.
Qed.

Lemma vertex_uv_in_unit_square_witness :
  let out := AsciiVertexGpu.asciiVertexShader (Vec2 (-1) 1) in
  AsciiVertexGpu.position out = Vec4 (-1) 1 0 1
  /\ x2 (AsciiVertexGpu.vertexUv out) == (-1 + 1) / 2
  /\ y2 (AsciiVertexGpu.vertexUv out) == (1 - 1) / 2
  /\ 0 <= x2 (AsciiVertexGpu.vertexUv out) <= 1
  /\ 0 <= y2 (AsciiVertexGpu.vertexUv out) <= 1.
Proof.
  apply (vertex_uv_in_unit_square (Vec2 (-1) 1)); split; vm_compute; discriminate.
Defined.

(** * Properties of the renderer shell *)

(** X9. Of two resize calls in a row only the second counts, also when the
    device pixel ratio changed in between; in particular repeating a resize
    with the same dimensions changes nothing. *)
Theorem resize_last_wins (b1 b2 : Browser) (this : ThreeRenderer)
    (w1 h1 w2 h2 : Q) :
  resize b2 (resize b1 this w1 h1) w2 h2 = resize b2 this w2 h2
  /\ resize b2 (resize b2 this w2 h2) w2 h2 = resize b2 this w2 h2.
Proof.
  assert (H : forall b b' w h w' h',
             resize b' (resize b this w h) w' h' = resize b' this w' h').
  { intros b b' w h w' h'.
    destruct this as [ct [r|] sc [c|] cb [rt|] ps pc [pm|] g m d pp tr cr];
      reflexivity. }
  split; apply H.
Qed.

(** ** What the events of a page leave alone *)

(** Only a resize touches the handles of the renderer. *)
Lemma step_keeps_handles (w : Interaction.World) (ev : Interaction.Event) :
  (forall b x y, ev <> Interaction.Resize b x y) ->
  let t := Interaction.self w in
  let t' := Interaction.self (Interaction.step w ev) in
  container t' = container t /\ renderer t' = renderer t
  /\ camera t' = camera t /\ renderTarget t' = renderTarget t
  /\ postMaterial t' = postMaterial t
  /\ scene t' = scene t /\ cube t' = cube t
  /\ postScene t' = postScene t /\ postCamera t' = postCamera t.
Proof.
  intros Hev.
  destruct ev as [e|e| |e|b x y| |]; cbn.
  - destruct (Interaction.listens _ _); repeat split.
  - destruct (Interaction.listens _ _); [|repeat split].
    unfold Interaction.onMouseMove.
    destruct (isDragging (Interaction.self w)); repeat split.
  - destruct (Interaction.listens _ _); repeat split.
  - destruct (Interaction.listens _ _); [|repeat split].
    unfold Interaction.onKeyDown.
    destruct (String.eqb (Interaction.key e) "ArrowUp"),
             (String.eqb (Interaction.key e) "ArrowDown"),
             (String.eqb (Interaction.key e) "ArrowLeft"),
             (String.eqb (Interaction.key e) "ArrowRight"); repeat split.
  - exfalso. now apply (Hev b x y).
  - unfold Interaction.render.
    destruct (Interaction.renderReady (Interaction.self w)); [|repeat split].
    cbn. destruct (isDragging (Interaction.self w)); repeat split.
  - repeat split.
Qed.

Lemma step_keeps_setup (dpr0 : Q) (w : Interaction.World) (ev : Interaction.Event) :
  pipelineSetUp dpr0 (Interaction.self w) ->
  pipelineSetUp dpr0 (Interaction.self (Interaction.step w ev)).
Proof.
  intros (u & atlas & Hu & Hf & Hn & Hd & Ht & Hw & Hh & Hb).
  destruct ev as [e|e| |e|b x y| |].
  5: { cbn. destruct (initialized (Interaction.self w)) eqn:Hi.
       - destruct (resize_initialized b (Interaction.self w) x y Hi)
           as (Hb' & u0 & Hu0 & Hu').
         rewrite Hu in Hu0. injection Hu0 as <-.
         exists (set_uResolution u (x * devicePixelRatio b) (y * devicePixelRatio b)), atlas.
         repeat split; assumption.
       - rewrite (resize_uninitialized b _ x y Hi).
         exists u, atlas. repeat split; assumption. }
  all: match goal with
       | |- pipelineSetUp _ (Interaction.self (Interaction.step _ ?ev)) =>
           destruct (step_keeps_handles w ev) as (_ & _ & _ & Hrt & Hpm & _);
           [intros; discriminate|]
       end;
       exists u, atlas;
       unfold asciiUniforms, bufferSize in *; rewrite Hrt, Hpm;
       repeat split; assumption.
Qed.

Lemma step_keeps_no_material (w : Interaction.World) (ev : Interaction.Event) :
  postMaterial (Interaction.self w) = None ->
  postMaterial (Interaction.self (Interaction.step w ev)) = None.
Proof.
  intros H. destruct ev as [e|e| |e|b x y| |].
  5: { cbn. rewrite (resize_uninitialized b (Interaction.self w) x y); [exact H|].
       unfold initialized. rewrite H.
       destruct (renderer (Interaction.self w)), (camera (Interaction.self w)),
                (renderTarget (Interaction.self w)); reflexivity. }
  all: match goal with
       | |- postMaterial (Interaction.self (Interaction.step _ ?ev)) = _ =>
           destruct (step_keeps_handles w ev) as (_ & _ & _ & _ & Hpm & _);
           [intros; discriminate|]
       end; rewrite Hpm; exact H.
Qed.

(** X11. After [initialize] on a fresh renderer, whatever input events,
    resizes (under any device pixel ratio), frames and [destroy] calls
    follow: if the canvas gave a 2D context, the composite pass keeps the
    cell size of [10 * devicePixelRatio] chosen at start-up, the character
    count 9, the scene buffer and the 576 by 64 atlas as textures, and a
    resolution uniform equal to the size of the scene buffer; if it did
    not, the renderer never gets a post material. *)
Theorem pipeline_stays_coherent (b : Browser) (c : HTMLElement)
    (evs : list Interaction.Event) :
  let w :=
    Interaction.run (fst (Interaction.initialize b Interaction.fresh c)) evs in
  if has2dContext b
  then pipelineSetUp (devicePixelRatio b) (Interaction.self w)
  else asciiUniforms (Interaction.self w) = None.
Proof.
  cbv zeta. unfold Interaction.run.
  destruct (has2dContext b) eqn:Hc.
  - assert (H0 : pipelineSetUp (devicePixelRatio b)
                   (Interaction.self (fst (Interaction.initialize b Interaction.fresh c)))).
    { destruct (three_atlas_returns b Hc) as (t & Ht & Hw & Hh).
      unfold Interaction.initialize, initialize. rewrite Ht. cbn.
      eexists. exists t. repeat split; try reflexivity; assumption. }
    revert H0. generalize (fst (Interaction.initialize b Interaction.fresh c)).
    induction evs as [|ev evs IH]; intros w H0; cbn; [exact H0|].
    apply IH. now apply step_keeps_setup.
  - assert (H0 : postMaterial
                   (Interaction.self (fst (Interaction.initialize b Interaction.fresh c)))
                 = None).
    { unfold Interaction.initialize, initialize.
      rewrite (three_atlas_throws b Hc). reflexivity. }
    revert H0. generalize (fst (Interaction.initialize b Interaction.fresh c)).
    induction evs as [|ev evs IH]; intros w H0; cbn.
    + unfold asciiUniforms. now rewrite H0.
    + apply IH. now apply step_keeps_no_material.
Qed.


(** Every renderer the page reaches after an [initialize] that succeeded
    holds the four handles [resize] asks for. *)
Lemma reachable_is_initialized (b : Browser) (c : HTMLElement)
    (evs : list Interaction.Event) :
  has2dContext b = true ->
  initialized
    (Interaction.self
       (Interaction.run (fst (Interaction.initialize b Interaction.fresh c)) evs))
  = true.
Proof.
  intros Hc. unfold Interaction.run.
  assert (H0 : initialized
                 (Interaction.self (fst (Interaction.initialize b Interaction.fresh c)))
               = true).
  { destruct (three_atlas_returns b Hc) as (t & Ht & _).
    unfold Interaction.initialize, initialize. rewrite Ht. reflexivity. }
  revert H0. generalize (fst (Interaction.initialize b Interaction.fresh c)).
  induction evs as [|ev evs IH]; intros w H0; cbn [fold_left]; [exact H0|].
  apply IH.
  destruct ev as [e|e| |e|b' x y| |].
  5: { cbn [Interaction.step Interaction.resize Interaction.with_self Interaction.self].
       destruct (initialized_parts _ H0) as (r & cm & rt & pm & Hr & Hcm & Hrt & Hpm).
       unfold resize, initialized. rewrite Hr, Hcm, Hrt, Hpm. reflexivity. }
  all: match goal with
       | |- initialized (Interaction.self (Interaction.step _ ?ev)) = true =>
           destruct (step_keeps_handles w ev) as (_ & Hr & Hcm & Hrt & Hpm & _);
           [intros; discriminate|]
       end;
       unfold initialized in *; rewrite Hr, Hcm, Hrt, Hpm; exact H0.
Qed.

(** ** Dragging *)

Lemma moves_while_dragging (es : list Interaction.MouseEvent) :
  forall w : Interaction.World,
    isDragging (Interaction.self w) = true ->
    let t := Interaction.self w in
    let w' := fold_left Interaction.onMouseMove es w in
    let t' := Interaction.self w' in
    isDragging t' = true
    /\ previousMousePosition t'
       = Interaction.pointerAfter (previousMousePosition t) es
    /\ currentRotation t' = currentRotation t
    /\ Interaction.cursor w' = Interaction.cursor w
    /\ Interaction.cubeRotation w' = Interaction.cubeRotation w
    /\ Interaction.drawn w' = Interaction.drawn w.
Proof.
  induction es as [|e es IH]; intros w Hd; cbv zeta.
  - cbn. repeat split; assumption.
  - cbn [fold_left].
    assert (Hstep : Interaction.onMouseMove w e
                    = Interaction.with_self w
                        (Interaction.self (Interaction.onMouseMove w e))).
    { unfold Interaction.onMouseMove. rewrite Hd. reflexivity. }
    assert (Hd1 : isDragging (Interaction.self (Interaction.onMouseMove w e)) = true).
    { unfold Interaction.onMouseMove. rewrite Hd. cbn. exact Hd. }
    destruct (IH (Interaction.onMouseMove w e) Hd1) as (I1 & I2 & I3 & I4 & I5 & I6).
    assert (P : previousMousePosition (Interaction.self (Interaction.onMouseMove w e))
                = MkXY (Interaction.clientX e) (Interaction.clientY e)).
    { unfold Interaction.onMouseMove. rewrite Hd. reflexivity. }
    assert (C : currentRotation (Interaction.self (Interaction.onMouseMove w e))
                = currentRotation (Interaction.self w)).
    { unfold Interaction.onMouseMove. rewrite Hd. reflexivity. }
    rewrite P in I2.
    change (Interaction.pointerAfter
              (previousMousePosition (Interaction.self w)) (e :: es))
      with (Interaction.pointerAfter
              (MkXY (Interaction.clientX e) (Interaction.clientY e)) es).
    repeat split.
    + exact I1.
    + exact I2.
    + rewrite I3. exact C.
    + rewrite I4, Hstep. reflexivity.
    + rewrite I5, Hstep. reflexivity.
    + rewrite I6, Hstep. reflexivity.
Qed.

Lemma moves_when_released (es : list Interaction.MouseEvent)
    (w : Interaction.World) :
  isDragging (Interaction.self w) = false ->
  fold_left Interaction.onMouseMove es w = w.
Proof.
  intros H. induction es as [|e es IH]; [reflexivity|].
  cbn [fold_left]. unfold Interaction.onMouseMove at 2. rewrite H. exact IH.
Qed.

(** X12. The bookkeeping of a drag: after a mouse press at [e0] and any
    number of moves, the renderer is still dragging and remembers the
    position of the last pointer event it saw; the moves touch neither the
    current rotation, nor the rotation shown by the cube, nor the frames
    drawn, and the cursor stays the one the press chose ([grabbing] when
    there is a container).  After a release, moves change nothing at
    all. *)
Theorem drag_tracks_pointer (w : Interaction.World)
    (e0 : Interaction.MouseEvent) (es : list Interaction.MouseEvent) :
  let t := Interaction.self w in
  let w' := fold_left Interaction.onMouseMove es (Interaction.onMouseDown w e0) in
  let t' := Interaction.self w' in
  isDragging t' = true
  /\ previousMousePosition t'
     = Interaction.pointerAfter
         (MkXY (Interaction.clientX e0) (Interaction.clientY e0)) es
  /\ currentRotation t' = currentRotation t
  /\ Interaction.cursor w'
     = match container t with
       | Some _ => "grabbing"%string
       | None => Interaction.cursor w
       end
  /\ Interaction.cubeRotation w' = Interaction.cubeRotation w
  /\ Interaction.drawn w' = Interaction.drawn w
  /\ isDragging (Interaction.self (Interaction.onMouseUp w')) = false
  /\ fold_left Interaction.onMouseMove es (Interaction.onMouseUp w')
     = Interaction.onMouseUp w'.
Proof.
  cbv zeta.
  destruct (moves_while_dragging es (Interaction.onMouseDown w e0) eq_refl)
    as (H1 & H2 & H3 & H4 & H5 & H6).
  cbn [Interaction.onMouseDown Interaction.self previousMousePosition
       currentRotation Interaction.set_isDragging
       Interaction.set_previousMousePosition Interaction.cursor
       Interaction.cubeRotation Interaction.drawn container] in H2, H3, H4, H5, H6.
  repeat split; try assumption.
  apply moves_when_released. reflexivity.
Qed.

(** ** Arrow keys *)

(** What one key press does to the rotation about x depends only on that
    rotation and the key; a key that is neither [ArrowUp] nor [ArrowDown]
    leaves it alone.  Likewise about y. *)
Lemma key_once (w : Interaction.World) (e : Interaction.KeyboardEvent) :
  let t := Interaction.self w in
  let t' := Interaction.self (Interaction.onKeyDown w e) in
  currentRotation t' = currentRotation t
  /\ isDragging t' = isDragging t
  /\ previousMousePosition t' = previousMousePosition t
  /\ (Interaction.vertical e = false ->
      xOf (targetRotation t') = xOf (targetRotation t))
  /\ (Interaction.horizontal e = false ->
      yOf (targetRotation t') = yOf (targetRotation t))
  /\ (forall w2 : Interaction.World,
        xOf (targetRotation (Interaction.self w2)) = xOf (targetRotation t) ->
        xOf (targetRotation (Interaction.self (Interaction.onKeyDown w2 e)))
        = xOf (targetRotation t'))
  /\ (forall w2 : Interaction.World,
        yOf (targetRotation (Interaction.self w2)) = yOf (targetRotation t) ->
        yOf (targetRotation (Interaction.self (Interaction.onKeyDown w2 e)))
        = yOf (targetRotation t')).
Proof.
  cbv zeta. unfold Interaction.onKeyDown, Interaction.vertical, Interaction.horizontal.
  destruct (String.eqb (Interaction.key e) "ArrowUp"),
           (String.eqb (Interaction.key e) "ArrowDown"),
           (String.eqb (Interaction.key e) "ArrowLeft"),
           (String.eqb (Interaction.key e) "ArrowRight");
    cbn -[Qplus Qminus Qmult]; repeat split;
    try discriminate; try reflexivity;
    intros w2 H2; rewrite H2; reflexivity.
Qed.

Lemma keys_by_axis (ks : list Interaction.KeyboardEvent) :
  forall w w2 : Interaction.World,
    (xOf (targetRotation (Interaction.self w2))
     = xOf (targetRotation (Interaction.self w)) ->
     xOf (targetRotation
            (Interaction.self
               (fold_left Interaction.onKeyDown (filter Interaction.vertical ks) w2)))
     = xOf (targetRotation (Interaction.self (fold_left Interaction.onKeyDown ks w))))
    /\ (yOf (targetRotation (Interaction.self w2))
        = yOf (targetRotation (Interaction.self w)) ->
        yOf (targetRotation
               (Interaction.self
                  (fold_left Interaction.onKeyDown
                             (filter Interaction.horizontal ks) w2)))
        = yOf (targetRotation (Interaction.self (fold_left Interaction.onKeyDown ks w)))).
Proof.
  induction ks as [|e ks IH]; intros w w2.
  - cbn. split; intros H; exact H.
  - destruct (key_once w e) as (_ & _ & _ & Kx & Ky & Sx & Sy).
    cbn [fold_left filter]. split; intros H.
    + destruct (Interaction.vertical e) eqn:Hv.
      * cbn [fold_left]. apply (proj1 (IH _ _)). now apply Sx.
      * apply (proj1 (IH _ _)). rewrite (Kx eq_refl). exact H.
    + destruct (Interaction.horizontal e) eqn:Hh.
      * cbn [fold_left]. apply (proj2 (IH _ _)). now apply Sy.
      * apply (proj2 (IH _ _)). rewrite (Ky eq_refl). exact H.
Qed.

(** X13. Arrow keys turn one axis each: after any sequence of key presses
    the target rotation about x is what the [ArrowUp] and [ArrowDown]
    presses of the sequence alone would have produced, and the target
    rotation about y is what its [ArrowLeft] and [ArrowRight] presses alone
    would have produced; keys that are no arrow keys change nothing at all,
    and no key touches the current rotation, the drag flag or the stored
    pointer position. *)
Theorem keys_turn_their_own_axis (ks : list Interaction.KeyboardEvent)
    (w : Interaction.World) :
  let t := Interaction.self w in
  let t' := Interaction.self (fold_left Interaction.onKeyDown ks w) in
  let only (p : Interaction.KeyboardEvent -> bool) :=
    Interaction.self (fold_left Interaction.onKeyDown (filter p ks) w) in
  xOf (targetRotation t') = xOf (targetRotation (only Interaction.vertical))
  /\ yOf (targetRotation t') = yOf (targetRotation (only Interaction.horizontal))
  /\ fold_left Interaction.onKeyDown
       (filter (fun e => negb (Interaction.vertical e || Interaction.horizontal e)) ks)
       w
     = w
  /\ currentRotation t' = currentRotation t
  /\ isDragging t' = isDragging t
  /\ previousMousePosition t' = previousMousePosition t.
Proof.
  cbv zeta.
  split; [symmetry; now apply (proj1 (keys_by_axis ks w w))|].
  split; [symmetry; now apply (proj2 (keys_by_axis ks w w))|].
  split.
  { induction ks as [|e ks IH]; [reflexivity|].
    cbn [filter].
    destruct (negb (Interaction.vertical e || Interaction.horizontal e)) eqn:Hn;
      [|exact IH].
    cbn [fold_left].
    assert (He : Interaction.onKeyDown w e = w).
    { revert Hn. unfold Interaction.vertical, Interaction.horizontal,
                        Interaction.onKeyDown.
      destruct (String.eqb (Interaction.key e) "ArrowUp"),
               (String.eqb (Interaction.key e) "ArrowDown"),
               (String.eqb (Interaction.key e) "ArrowLeft"),
               (String.eqb (Interaction.key e) "ArrowRight");
        cbn; intros Hn; try discriminate.
      now destruct w. }
    rewrite He. exact IH. }
  revert w. induction ks as [|e ks IH]; intros w.
  - repeat split.
  - cbn [fold_left].
    destruct (IH (Interaction.onKeyDown w e)) as (I3 & I4 & I5).
    destruct (key_once w e) as (K3 & K4 & K5 & _).
    repeat split; congruence.
Qed.

(** ** Frames *)

(** One frame of a renderer that passes the guard of [render]. *)
Lemma render_once (w : Interaction.World) :
  Interaction.renderReady (Interaction.self w) = true ->
  let t := Interaction.self w in
  let w' := Interaction.render w in
  let t' := Interaction.self w' in
  Interaction.renderReady t' = true
  /\ isDragging t' = isDragging t
  /\ xOf (currentRotation t')
     == xOf (currentRotation t)
        + (xOf (targetRotation t) - xOf (currentRotation t)) * 0.1
  /\ yOf (currentRotation t')
     == yOf (currentRotation t)
        + (yOf (targetRotation t) - yOf (currentRotation t)) * 0.1
  /\ xOf (targetRotation t')
     == xOf (targetRotation t) + (if isDragging t then 0 else 0.001)
  /\ yOf (targetRotation t')
     == yOf (targetRotation t) + (if isDragging t then 0 else 0.002)
  /\ Interaction.cubeRotation w' = currentRotation t'
  /\ Interaction.drawn w'
     = Interaction.drawn w ++ [Interaction.SceneToTarget; Interaction.PostToScreen].
Proof.
  intros Hr. cbv zeta. unfold Interaction.render. rewrite Hr.
  cbn -[Qplus Qminus Qmult Interaction.renderReady].
  destruct (isDragging (Interaction.self w)) eqn:Hd;
    cbn -[Qplus Qminus Qmult Interaction.renderReady];
    repeat split; first [exact Hr | exact Hd | reflexivity | ring].
Qed.

(** X14. A drag suspends the automatic spin: on a renderer that passes
    the guard of [render] and is dragging, any number of frames leaves the
    target rotation exactly where the pointer put it and the renderer
    dragging; each frame draws, and after at least one frame the cube shows
    the current rotation of the renderer. *)
Theorem drag_holds_target (w : Interaction.World) (n : nat) :
  Interaction.renderReady (Interaction.self w) = true ->
  isDragging (Interaction.self w) = true ->
  let w' := Nat.iter n Interaction.render w in
  let t' := Interaction.self w' in
  targetRotation t' = targetRotation (Interaction.self w)
  /\ isDragging t' = true
  /\ previousMousePosition t' = previousMousePosition (Interaction.self w)
  /\ Interaction.renderReady t' = true
  /\ ((0 < n)%nat -> Interaction.cubeRotation w' = currentRotation t').
Proof.
  intros Hr Hd. cbv zeta.
  assert (Hstep : forall v : Interaction.World,
            Interaction.renderReady (Interaction.self v) = true ->
            isDragging (Interaction.self v) = true ->
            targetRotation (Interaction.self (Interaction.render v))
            = targetRotation (Interaction.self v)
            /\ isDragging (Interaction.self (Interaction.render v)) = true
            /\ previousMousePosition (Interaction.self (Interaction.render v))
               = previousMousePosition (Interaction.self v)
            /\ Interaction.renderReady (Interaction.self (Interaction.render v)) = true
            /\ Interaction.cubeRotation (Interaction.render v)
               = currentRotation (Interaction.self (Interaction.render v))).
  { intros v Vr Vd. unfold Interaction.render. rewrite Vr.
    cbn -[Qplus Qminus Qmult Interaction.renderReady]. rewrite Vd.
    cbn -[Qplus Qminus Qmult Interaction.renderReady].
    repeat split; first [exact Vr | exact Vd]. }
  induction n as [|n IH].
  - change (Nat.iter 0 Interaction.render w) with w.
    repeat split; try assumption. intros H; inversion H.
  - destruct IH as (It & Id & Ip & Ir & _).
    change (Nat.iter (S n) Interaction.render w)
      with (Interaction.render (Nat.iter n Interaction.render w)).
    destruct (Hstep _ Ir Id) as (S1 & S2 & S3 & S4 & S5).
    repeat split.
    + rewrite S1. exact It.
    + exact S2.
    + rewrite S3. exact Ip.
    + exact S4.
    + intros _. exact S5.
Qed.

Lemma drag_holds_target_witness :
  let w' := Nat.iter 3 Interaction.render dragged in
  let t' := Interaction.self w' in
  targetRotation t' = targetRotation (Interaction.self dragged)
  /\ isDragging t' = true
  /\ previousMousePosition t' = previousMousePosition (Interaction.self dragged)
  /\ Interaction.renderReady t' = true
  /\ ((0 < 3)%nat -> Interaction.cubeRotation w' = currentRotation t').
Proof.
  apply (drag_holds_target dragged 3); reflexivity.
Defined.

Lemma render_stays_ready (w : Interaction.World) (n : nat) :
  Interaction.renderReady (Interaction.self w) = true ->
  Interaction.renderReady (Interaction.self (Nat.iter n Interaction.render w)) = true.
Proof.
  intros Hr. induction n as [|n IH]; [exact Hr|].
  change (Nat.iter (S n) Interaction.render w)
    with (Interaction.render (Nat.iter n Interaction.render w)).
  now destruct (render_once _ IH) as (R1 & _).
Qed.

Lemma concat_repeat_snoc (A : Type) (p : list A) (n : nat) :
  concat (repeat p n) ++ p = concat (repeat p (S n)).
Proof.
  induction n as [|n IH]; [cbn; now rewrite app_nil_r|].
  cbn [repeat concat] in *. now rewrite <- app_assoc, IH.
Qed.

(** X16. A frame draws the scene into the scene buffer and then the
    composite quad to the screen, in this order and once each: [n] frames of
    a renderer that holds its seven handles append [n] such pairs to what
    was drawn.  A renderer that misses one of them draws nothing and is
    left as it is. *)
Theorem frames_draw_scene_then_composite (w : Interaction.World) (n : nat) :
  if Interaction.renderReady (Interaction.self w) then
    Interaction.drawn (Nat.iter n Interaction.render w)
    = Interaction.drawn w
      ++ concat (repeat [Interaction.SceneToTarget; Interaction.PostToScreen] n)
  else Nat.iter n Interaction.render w = w.
Proof.
  destruct (Interaction.renderReady (Interaction.self w)) eqn:Hr.
  - induction n as [|n IH].
    + cbn. now rewrite app_nil_r.
    + change (Nat.iter (S n) Interaction.render w)
        with (Interaction.render (Nat.iter n Interaction.render w)).
      destruct (render_once _ (render_stays_ready w n Hr))
        as (_ & _ & _ & _ & _ & _ & _ & Hdr).
      rewrite Hdr, IH, <- app_assoc. f_equal. apply concat_repeat_snoc.
  - induction n as [|n IH]; [reflexivity|].
    change (Nat.iter (S n) Interaction.render w)
      with (Interaction.render (Nat.iter n Interaction.render w)).
    rewrite IH. unfold Interaction.render. now rewrite Hr.
Qed.

(** X17. When the font atlas cannot be built, [initialize] leaves a
    renderer that [render] still accepts and [resize] does not: it has no
    post material and no listeners, every resize leaves it as it is, and a
    frame still draws both passes. *)
Theorem failed_initialize_still_renders (b : Browser) (c : HTMLElement) :
  has2dContext b = false ->
  let w := fst (Interaction.initialize b Interaction.fresh c) in
  snd (Interaction.initialize b Interaction.fresh c)
    = Some (MkError "Could not create 2D context for ASCII texture")
  /\ postMaterial (Interaction.self w) = None
  /\ Interaction.containerListeners w = []
  /\ Interaction.windowListeners w = []
  /\ initialized (Interaction.self w) = false
  /\ (forall b' x y, Interaction.resize b' w x y = w)
  /\ Interaction.renderReady (Interaction.self w) = true
  /\ Interaction.drawn (Interaction.render w)
     = [Interaction.SceneToTarget; Interaction.PostToScreen].
Proof.
  intros Hc. cbv zeta.
  unfold Interaction.initialize, initialize.
  rewrite (three_atlas_throws b Hc). cbn.
  repeat split.
Qed.

Lemma failed_initialize_still_renders_witness :
  let w := fst (Interaction.initialize noCanvas Interaction.fresh page) in
  snd (Interaction.initialize noCanvas Interaction.fresh page)
    = Some (MkError "Could not create 2D context for ASCII texture")
  /\ postMaterial (Interaction.self w) = None
  /\ Interaction.containerListeners w = []
  /\ Interaction.windowListeners w = []
  /\ initialized (Interaction.self w) = false
  /\ (forall b' x y, Interaction.resize b' w x y = w)
  /\ Interaction.renderReady (Interaction.self w) = true
  /\ Interaction.drawn (Interaction.render w)
     = [Interaction.SceneToTarget; Interaction.PostToScreen].
Proof.
  apply (failed_initialize_still_renders noCanvas page). reflexivity.
Defined.

(** ** Listeners and teardown *)

(** The listeners of a page are at most the renderer's own four, and the
    renderer knows its container. *)
Lemma listeners_bounded (b : Browser) (c : HTMLElement)
    (evs : list Interaction.Event) :
  let w :=
    Interaction.run (fst (Interaction.initialize b Interaction.fresh c)) evs in
  container (Interaction.self w) <> None
  /\ (forall l, In l (Interaction.containerListeners w) ->
        l = ("mousedown"%string, Interaction.OnMouseDown)
        \/ l = ("mousemove"%string, Interaction.OnMouseMove))
  /\ (forall l, In l (Interaction.windowListeners w) ->
        l = ("mouseup"%string, Interaction.OnMouseUp)
        \/ l = ("keydown"%string, Interaction.OnKeyDown)).
Proof.
  cbv zeta. unfold Interaction.run.
  set (P := fun w : Interaction.World =>
    container (Interaction.self w) <> None
    /\ (forall l, In l (Interaction.containerListeners w) ->
          l = ("mousedown"%string, Interaction.OnMouseDown)
          \/ l = ("mousemove"%string, Interaction.OnMouseMove))
    /\ (forall l, In l (Interaction.windowListeners w) ->
          l = ("mouseup"%string, Interaction.OnMouseUp)
          \/ l = ("keydown"%string, Interaction.OnKeyDown))).
  change (P (fold_left Interaction.step evs
               (fst (Interaction.initialize b Interaction.fresh c)))).
  assert (H0 : P (fst (Interaction.initialize b Interaction.fresh c))).
  { unfold P, Interaction.initialize, initialize.
    destruct (AtlasThree.createAsciiTexture b); cbn.
    - split; [discriminate|]. split; intros l [<-|[<-|[]]]; auto.
    - split; [discriminate|]. split; intros l []. }
  revert H0. generalize (fst (Interaction.initialize b Interaction.fresh c)).
  induction evs as [|ev evs IH]; intros w H0; cbn [fold_left]; [exact H0|].
  apply IH. clear IH. destruct H0 as (Hc & Hcl & Hwl). unfold P.
  destruct ev as [e|e| |e|b' x y| |]; cbn [Interaction.step].
  - destruct (Interaction.listens _ _); [|now repeat split].
    cbn. now repeat split.
  - destruct (Interaction.listens _ _); [|now repeat split].
    unfold Interaction.onMouseMove.
    destruct (isDragging (Interaction.self w)); cbn; now repeat split.
  - destruct (Interaction.listens _ _); [|now repeat split].
    cbn. now repeat split.
  - destruct (Interaction.listens _ _); [|now repeat split].
    unfold Interaction.onKeyDown.
    destruct (String.eqb (Interaction.key e) "ArrowUp"),
             (String.eqb (Interaction.key e) "ArrowDown"),
             (String.eqb (Interaction.key e) "ArrowLeft"),
             (String.eqb (Interaction.key e) "ArrowRight");
      cbn; now repeat split.
  - cbn. split; [|now split].
    unfold resize.
    destruct (renderer (Interaction.self w)), (camera (Interaction.self w)),
             (renderTarget (Interaction.self w)), (postMaterial (Interaction.self w));
      exact Hc.
  - unfold Interaction.render.
    destruct (Interaction.renderReady (Interaction.self w)); [|now repeat split].
    cbn. destruct (isDragging (Interaction.self w)); cbn; now repeat split.
  - unfold Interaction.destroy. cbn.
    split; [exact Hc|]. split.
    + intros l Hl. apply Hcl.
      destruct (container (Interaction.self w)); [|exact Hl].
      unfold Interaction.removeEventListener in Hl.
      apply filter_In in Hl. destruct Hl as [Hl _].
      apply filter_In in Hl. now destruct Hl.
    + intros l Hl. apply Hwl.
      unfold Interaction.removeEventListener in Hl.
      apply filter_In in Hl. destruct Hl as [Hl _].
      apply filter_In in Hl. now destruct Hl.
Qed.

Lemma remove_both (ls : list Interaction.Listener) (a b : Interaction.Listener) :
  Interaction.listener_eqb a a = true ->
  Interaction.listener_eqb b b = true ->
  (forall l, In l ls -> l = a \/ l = b) ->
  Interaction.removeEventListener (Interaction.removeEventListener ls a) b = [].
Proof.
  intros Ha Hb H. unfold Interaction.removeEventListener.
  induction ls as [|l ls IH]; [reflexivity|].
  assert (IH' := IH (fun x Hx => H x (or_intror Hx))).
  destruct (H l (or_introl eq_refl)) as [-> | ->]; cbn [filter].
  - rewrite Ha. cbn [negb]. exact IH'.
  - destruct (negb (Interaction.listener_eqb a b)); [|exact IH'].
    cbn [filter]. rewrite Hb. cbn [negb]. exact IH'.
Qed.

(** X18. [destroy] undoes the listeners of [initialize]: a successful
    [initialize] registers the four handlers, a failed one none, and after
    any events a [destroy] leaves no listener of the renderer on the
    container or the window, so that later mouse and key events change
    nothing.  The handles of the renderer stay in place. *)
Theorem destroy_detaches (b : Browser) (c : HTMLElement)
    (evs : list Interaction.Event) :
  let w0 := fst (Interaction.initialize b Interaction.fresh c) in
  let w := Interaction.run w0 evs in
  let d := Interaction.destroy w in
  Interaction.containerListeners w0
    = (if has2dContext b
       then [("mousedown"%string, Interaction.OnMouseDown);
             ("mousemove"%string, Interaction.OnMouseMove)]
       else [])
  /\ Interaction.windowListeners w0
     = (if has2dContext b
        then [("mouseup"%string, Interaction.OnMouseUp);
              ("keydown"%string, Interaction.OnKeyDown)]
        else [])
  /\ Interaction.containerListeners d = []
  /\ Interaction.windowListeners d = []
  /\ Interaction.self d = Interaction.self w
  /\ (forall ev, isInput ev = true -> Interaction.step d ev = d).
Proof.
  cbv zeta.
  destruct (listeners_bounded b c evs) as (Hc & Hcl & Hwl).
  set (w := Interaction.run (fst (Interaction.initialize b Interaction.fresh c)) evs) in *.
  assert (Dc : Interaction.containerListeners (Interaction.destroy w) = []).
  { unfold Interaction.destroy. cbn [Interaction.containerListeners].
    destruct (container (Interaction.self w)); [|congruence].
    now apply remove_both. }
  assert (Dw : Interaction.windowListeners (Interaction.destroy w) = []).
  { unfold Interaction.destroy. cbn [Interaction.windowListeners].
    now apply remove_both. }
  split; [|split].
  - unfold Interaction.initialize, initialize.
    destruct (has2dContext b) eqn:H2.
    + destruct (three_atlas_returns b H2) as (t & Ht & _). rewrite Ht. reflexivity.
    + rewrite (three_atlas_throws b H2). reflexivity.
  - unfold Interaction.initialize, initialize.
    destruct (has2dContext b) eqn:H2.
    + destruct (three_atlas_returns b H2) as (t & Ht & _). rewrite Ht. reflexivity.
    + rewrite (three_atlas_throws b H2). reflexivity.
  - split; [exact Dc|]. split; [exact Dw|]. split; [reflexivity|].
    intros ev Hev.
    destruct ev as [e|e| |e|b' x y| |]; try discriminate;
      cbn [Interaction.step]; rewrite ?Dc, ?Dw; reflexivity.
Qed.

(** * Properties of the font atlas builders *)

(** X19. What either builder leaves on its canvas.  With a 2D context it
    has painted ten commands: one black rectangle over the whole 576 by 64
    strip, then, for [i] from 0 to 8 in this order, character [i] of the
    ramp in white bold 64px monospace, centred on [(64 i + 32, 32)], the
    middle of the cell [[64 i, 64 (i + 1))] of the strip; every one of the
    nine indices has a character.  Without a context nothing is
    returned. *)
Theorem atlas_strip_contents (k : Backend) (b : Browser) :
  if has2dContext b then
    exists cmds,
      paintedBy k b = Some (FillRect "#000000" 0 0 576 64 :: cmds)
      /\ List.length cmds = 9%nat
      /\ forall i, (i < 9)%nat ->
           exists ch x,
             nth_error cmds i
             = Some (FillText "#ffffff" "bold 64px monospace" "center" "middle"
                              (String ch EmptyString) x 32%Z)
             /\ String.get i (rampOf k) = Some ch
             /\ x = (64 * Z.of_nat i + 32)%Z
             /\ (64 * Z.of_nat i <= x < 64 * (Z.of_nat i + 1))%Z
             /\ (64 * (Z.of_nat i + 1) <= 576)%Z
  else paintedBy k b = None.
Proof.
  destruct (has2dContext b) eqn:H.
  - destruct (atlas_painting b H) as ((t & Ht & Hp) & (g & Hg & cv & Hcv & Hq)).
    exists (map (fun i => FillText "#ffffff" "bold 64px monospace" "center" "middle"
                              (charAt (rampOf k) i) (Z.of_nat i * 64 + 32)%Z 32%Z)
                (seq 0 9)).
    split; [|split].
    + destruct k; unfold paintedBy.
      * rewrite Ht, Hp. reflexivity.
      * rewrite Hg, Hcv, Hq. reflexivity.
    + reflexivity.
    + intros i Hi.
      assert (Hc : exists ch, String.get i (rampOf k) = Some ch).
      { destruct k; do 9 (destruct i as [|i]; [eexists; reflexivity|]); lia. }
      destruct Hc as [ch Hch].
      exists ch, (64 * Z.of_nat i + 32)%Z.
      split; [|split; [exact Hch | split; [reflexivity | lia]]].
      rewrite nth_error_map, nth_error_seq.
      destruct (Nat.ltb_spec i 9) as [_|Hge]; [|lia].
      cbn [option_map Nat.add]. unfold charAt. rewrite Hch.
      do 2 f_equal. lia.
  - destruct k; unfold paintedBy.
    + now rewrite (three_atlas_throws b H).
    + now rewrite (gpu_atlas_throws b H).
Qed.

(** X20. The character the three.js pass chooses is in the atlas: for the
    texture that [createAsciiTexture] returns, nine characters and a
    luminance in [[0,1]], the character index is a whole number [j] below
    9, and the atlas holds the glyph [CHAR_SET[j]], a character of the
    ramp, centred on [x = 64 j + 32], the middle of cell [j] of a strip
    that is 576 wide. *)
Theorem chosen_glyph_is_painted (b : Browser) (t : AtlasThree.Texture)
    (i : PassInput) :
  AtlasThree.createAsciiTexture b = Return t ->
  charCount i = 9 ->
  0 <= luminance (passLocals Three i) <= 1 ->
  exists (j : nat) (ch : ascii),
    (j < 9)%nat
    /\ charIndex (passLocals Three i) = inject_Z (Z.of_nat j)
    /\ String.get j AsciiShaderThree.CHAR_SET = Some ch
    /\ In (FillText "#ffffff" "bold 64px monospace" "center" "middle"
                    (String ch EmptyString) (Z.of_nat j * 64 + 32)%Z 32%Z)
          (painted (AtlasThree.image t))
    /\ Dom.width (AtlasThree.image t) = 576%Z.
Proof.
  intros Ht HN Hlum.
  assert (Hc : has2dContext b = true).
  { destruct (has2dContext b) eqn:H; [reflexivity|].
    rewrite (three_atlas_throws b H) in Ht. discriminate. }
  destruct (three_atlas_returns b Hc) as (t1 & Ht1 & Hw & _).
  destruct (atlas_painting b Hc) as ((t2 & Ht2 & Hp) & _).
  assert (t1 = t) by congruence. assert (t2 = t) by congruence. subst t1 t2.
  assert (HN1 : 1 <= charCount i) by (rewrite HN; discriminate).
  pose proof (charIndex_bounds Three i Hlum HN1) as [Hlo Hhi].
  pose proof (charIndex_def Three i) as Hdef.
  set (z := Qfloor (luminance (passLocals Three i) * (charCount i - 1))) in *.
  unfold floor in Hdef. fold z in Hdef.
  rewrite Hdef in Hlo, Hhi. rewrite HN in Hhi.
  assert (Hz : (0 <= z <= 8)%Z).
  { split.
    - rewrite Zle_Qle. exact Hlo.
    - rewrite Zle_Qle. change (inject_Z 8) with (9 - 1). exact Hhi. }
  assert (Hj : Z.of_nat (Z.to_nat z) = z) by lia.
  assert (Hlt : (Z.to_nat z < 9)%nat) by lia.
  assert (Hch : exists ch, String.get (Z.to_nat z) AsciiShaderThree.CHAR_SET = Some ch).
  { clear -Hlt. generalize dependent (Z.to_nat z). intros j Hlt.
    do 9 (destruct j as [|j]; [eexists; reflexivity|]). lia. }
  destruct Hch as [ch Hch].
  exists (Z.to_nat z), ch.
  rewrite Hj.
  split; [exact Hlt|]. split; [exact Hdef|]. split; [exact Hch|]. split.
  - rewrite Hp. right.
    apply in_map_iff. exists (Z.to_nat z). rewrite Hj.
    split; [|apply in_seq; lia].
    unfold charAt. rewrite Hch. reflexivity.
  - rewrite Hw. reflexivity.
Qed.

Lemma chosen_glyph_is_painted_witness :
  exists (j : nat) (ch : ascii),
    (j < 9)%nat
    /\ charIndex (passLocals Three greyInput) = inject_Z (Z.of_nat j)
    /\ String.get j AsciiShaderThree.CHAR_SET = Some ch
    /\ In (FillText "#ffffff" "bold 64px monospace" "center" "middle"
                    (String ch EmptyString) (Z.of_nat j * 64 + 32)%Z 32%Z)
          (painted (AtlasThree.image
                      (returnedTexture (AtlasThree.createAsciiTexture retina))))
    /\ Dom.width (AtlasThree.image
                    (returnedTexture (AtlasThree.createAsciiTexture retina)))
       = 576%Z.
Proof.
  apply (chosen_glyph_is_painted retina).
  - reflexivity.
  - reflexivity.
  - split; vm_compute; discriminate.
Defined.

(** X21. The two builders agree: on the same browser both throw the same
    error or both return, and then the typegpu texture has the size of the
    three.js canvas and is filled, over its whole extent, from a canvas
    with the same size and the same painting. *)
Theorem builders_paint_the_same (b : Browser) :
  match AtlasThree.createAsciiTexture b, AtlasGpu.createAsciiTexture b with
  | Return t, Return g =>
      AtlasGpu.contents g
      = Some (AtlasThree.image t,
              (Dom.width (AtlasThree.image t), Dom.height (AtlasThree.image t)))
      /\ AtlasGpu.size g
         = (Dom.width (AtlasThree.image t), Dom.height (AtlasThree.image t), 1%Z)
      /\ AtlasThree.minFilter t = AtlasThree.NearestFilter
      /\ AtlasThree.magFilter t = AtlasThree.NearestFilter
      /\ AtlasThree.generateMipmaps t = false
  | Throw e, Throw e' => e = e'
  | _, _ => False
  end.
Proof.
  unfold AtlasThree.createAsciiTexture, AtlasGpu.createAsciiTexture, getContext_2d.
  cbn. destruct (has2dContext b); cbn; repeat split.
Qed.

(** * Properties of the dodecahedron mesh *)

Module DodecahedronFacts.

Import Dodecahedron.

Lemma update_length (l : list Q) (i : nat) (f : Q -> Q) :
  List.length (update l i f) = List.length l.
Proof.
  revert i. induction l as [|x l IH]; intros i; [reflexivity|].
  destruct i; cbn; [reflexivity | now rewrite IH].
Qed.

Lemma update_app_r (l1 l2 : list Q) (o : nat) (f : Q -> Q) :
  update (l1 ++ l2) (List.length l1 + o) f = l1 ++ update l2 o f.
Proof.
  induction l1 as [|x l1 IH]; [reflexivity|].
  cbn. now rewrite IH.
Qed.

Lemma update_app_l (l1 l2 : list Q) (o : nat) (f : Q -> Q) :
  (o < List.length l1)%nat ->
  update (l1 ++ l2) o f = update l1 o f ++ l2.
Proof.
  revert o. induction l1 as [|x l1 IH]; intros o Ho; [cbn in Ho; lia|].
  destruct o; cbn; [reflexivity|].
  rewrite IH; [reflexivity | cbn in Ho; lia].
Qed.

Lemma concat_length5 (blocks : list (list Q)) :
  Forall (fun b => List.length b = 5%nat) blocks ->
  List.length (concat blocks) = (5 * List.length blocks)%nat.
Proof.
  induction 1 as [|b bs Hb _ IH]; [reflexivity|].
  cbn [concat List.length]. rewrite length_app, Hb, IH. lia.
Qed.

(** The scaling loop, on a buffer of whole vertex records. *)
Lemma scale_blocks_from (post pre : list (list Q)) :
  Forall (fun b => List.length b = 5%nat) pre ->
  Forall (fun b => List.length b = 5%nat) post ->
  fold_left
    (fun a i =>
       let a := update a i (fun x => x * 0.8) in
       let a := update a (i + 1) (fun x => x * 0.8) in
       update a (i + 2) (fun x => x * 0.8))
    (map (fun j => 5 * j)%nat (seq (List.length pre) (List.length post)))
    (concat (pre ++ post))
  = concat (pre ++ map scaleBlock post).
Proof.
  revert pre. induction post as [|b post IH]; intros pre Hpre Hpost.
  - reflexivity.
  - inversion Hpost as [|? ? Hb Hpost']; subst.
    cbn [List.length seq map fold_left].
    assert (Hstep :
      update (update (update (concat (pre ++ b :: post)) (5 * List.length pre)
                        (fun x => x * 0.8))
                     (5 * List.length pre + 1) (fun x => x * 0.8))
             (5 * List.length pre + 2) (fun x => x * 0.8)
      = concat ((pre ++ [scaleBlock b]) ++ post)).
    { rewrite !concat_app. cbn [concat]. rewrite app_nil_r, <- app_assoc.
      rewrite <- (concat_length5 pre Hpre).
      destruct b as [|b0 [|b1 [|b2 [|b3 [|b4 [|]]]]]]; try discriminate.
      rewrite <- (Nat.add_0_r (List.length (concat pre))) at 1.
      rewrite !update_app_r. reflexivity. }
    cbv zeta. rewrite Hstep.
    replace (S (List.length pre)) with (List.length (pre ++ [scaleBlock b]))
      by (rewrite length_app; cbn; lia).
    rewrite IH.
    + now rewrite <- app_assoc.
    + apply Forall_app. split; [exact Hpre|]. constructor; [|constructor].
      unfold scaleBlock. now rewrite !update_length.
    + exact Hpost'.
Qed.

Lemma scale_blocks (blocks : list (list Q)) :
  Forall (fun b => List.length b = 5%nat) blocks ->
  scalePositions 0.8 (concat blocks) = concat (map scaleBlock blocks).
Proof.
  intros H. unfold scalePositions.
  rewrite (concat_length5 blocks H).
  replace ((5 * List.length blocks + 4) / 5)%nat with (List.length blocks).
  - exact (scale_blocks_from blocks [] (Forall_nil _) H).
  - rewrite (Nat.mul_comm 5), Nat.div_add_l by discriminate. cbn. lia.
Qed.

Section Tables.

Variable PI : Q.
Variable cos : Q -> Q.
Variable sin : Q -> Q.
Variable vs : list (list Q).

Hypothesis vs_xyz : Forall (fun v => List.length v = 3%nat) vs.

(** *** The triangulation *)

Lemma pushFace_chunk (fv : list Q) (face : list nat) :
  List.length face = 5%nat ->
  Forall (fun v => (v < List.length vs)%nat) face ->
  pushFace vs (Some fv) face = Some (fv ++ rawChunk vs face).
Proof.
  intros Hl Hin.
  destruct face as [|a [|b [|c [|d [|e [|]]]]]]; try discriminate.
  inversion Hin as [|? ? Ha Hin1]; subst.
  inversion Hin1 as [|? ? Hb Hin2]; subst.
  inversion Hin2 as [|? ? Hc Hin3]; subst.
  inversion Hin3 as [|? ? Hd Hin4]; subst.
  inversion Hin4 as [|? ? He _]; subst.
  unfold pushFace, rawChunk, fanCorners.
  cbn [fold_left nth_error Nat.add flat_map nth].
  unfold pushVertex.
  rewrite !(nth_error_nth' vs [] Ha), !(nth_error_nth' vs [] Hb),
          !(nth_error_nth' vs [] Hc), !(nth_error_nth' vs [] Hd),
          !(nth_error_nth' vs [] He).
  rewrite app_nil_r, <- !app_assoc. reflexivity.
Qed.

Lemma triangulate_chunks (fs : list (list nat)) (fv : list Q) :
  wellFormed (List.length vs) fs ->
  fold_left (pushFace vs) fs (Some fv) = Some (fv ++ flat_map (rawChunk vs) fs).
Proof.
  revert fv. induction fs as [|face fs IH]; intros fv Hwf.
  - cbn. now rewrite app_nil_r.
  - inversion Hwf as [|? ? (Hl & _ & Hin) Hwf']; subst.
    cbn [fold_left flat_map].
    rewrite (pushFace_chunk fv face Hl Hin), IH by exact Hwf'.
    now rewrite <- app_assoc.
Qed.

(** *** From chunks to vertex records *)

Lemma chunks_as_blocks (h : list nat -> nat -> list Q) (fs : list (list nat)) :
  flat_map (fun face => flat_map (h face) fanCorners) fs
  = concat (map (fun fc => h (fst fc) (snd fc)) (corners fs)).
Proof.
  unfold corners. induction fs as [|face fs IH]; [reflexivity|].
  cbn [flat_map]. rewrite map_app, concat_app, <- IH. reflexivity.
Qed.

Lemma corner_vertex (fs : list (list nat)) (fc : list nat * nat) :
  wellFormed (List.length vs) fs ->
  In fc (corners fs) ->
  List.length (nth (nth (snd fc) (fst fc) O) vs []) = 3%nat.
Proof.
  intros Hwf Hfc. unfold corners in Hfc.
  apply in_flat_map in Hfc. destruct Hfc as (face & Hface & Hk).
  apply in_map_iff in Hk. destruct Hk as (k & <- & Hk). cbn [fst snd].
  unfold wellFormed in Hwf. rewrite Forall_forall in Hwf.
  destruct (Hwf face Hface) as (Hl & _ & Hin).
  assert (Hk5 : (k < 5)%nat).
  { unfold fanCorners in Hk. cbn in Hk. lia. }
  rewrite Forall_forall in Hin, vs_xyz.
  apply vs_xyz, nth_In, Hin, nth_In. lia.
Qed.

Lemma scaled_chunks (fs : list (list nat)) :
  wellFormed (List.length vs) fs ->
  scalePositions 0.8 (flat_map (rawChunk vs) fs) = flat_map (scaledChunk vs) fs.
Proof.
  intros Hwf. unfold rawChunk, scaledChunk.
  rewrite (chunks_as_blocks (fun face k => nth (nth k face O) vs [] ++ [0; 0])).
  rewrite (chunks_as_blocks
             (fun face k => map (fun x => x * 0.8) (nth (nth k face O) vs [])
                            ++ [0; 0])).
  rewrite scale_blocks.
  - rewrite map_map. f_equal. apply map_ext_in. intros fc Hfc.
    pose proof (corner_vertex fs fc Hwf Hfc) as H3.
    destruct (nth (nth (snd fc) (fst fc) O) vs []) as [|x [|y [|z [|]]]];
      try discriminate.
    reflexivity.
  - rewrite Forall_forall. intros b Hb.
    apply in_map_iff in Hb. destruct Hb as (fc & <- & Hfc).
    rewrite length_app, (corner_vertex fs fc Hwf Hfc). reflexivity.
Qed.

(** *** The texture coordinates *)

Lemma distinct5 (a b c d e : nat) :
  NoDup [a; b; c; d; e] ->
  a <> b /\ a <> c /\ a <> d /\ a <> e /\ b <> c /\ b <> d /\ b <> e
  /\ c <> d /\ c <> e /\ d <> e.
Proof.
  intros H. rewrite !NoDup_cons_iff in H. cbn in H.
  repeat split; intros ->; tauto.
Qed.

Lemma uv_lookup (face : list nat) (k : nat) :
  List.length face = 5%nat ->
  NoDup face ->
  (k < 9)%nat ->
  uvMap_get (uvMapOf PI cos sin face) (nth k (pushedIndicesOf face) None)
  = Some (cornerUv PI cos sin (nth k fanCorners O)).
Proof.
  intros Hl Hnd Hk.
  destruct face as [|a [|b [|c [|d [|e [|]]]]]]; try discriminate.
  destruct (distinct5 a b c d e Hnd)
    as (Hab & Hac & Had & Hae & Hbc & Hbd & Hbe & Hcd & Hce & Hde).
  do 9 (destruct k as [|k];
        [ cbn -[cornerUv Nat.eqb];
          repeat match goal with
                 | |- context [Nat.eqb ?x ?y] =>
                     destruct (Nat.eqb_spec x y); [congruence|]
                 end;
          rewrite ?Nat.eqb_refl; try reflexivity;
          repeat match goal with
                 | |- context [Nat.eqb ?x ?y] =>
                     destruct (Nat.eqb_spec x y); [try congruence|]
                 end; try reflexivity; congruence
        | ]).
  lia.
Qed.

Lemma patchFace_unfold (a : option (list Q)) (f : nat) (face : list nat) :
  patchFace PI cos sin a f face
  = fold_left
      (fun a k =>
         match a with
         | None => None
         | Some arr =>
             match uvMap_get (uvMapOf PI cos sin face)
                             (nth k (pushedIndicesOf face) None) with
             | None => None
             | Some uv =>
                 Some (update (update arr (f * 9 * 5 + k * 5 + 3) (fun _ => fst uv))
                              (f * 9 * 5 + k * 5 + 4) (fun _ => snd uv))
             end
         end)
      (seq 0 9) a.
Proof. reflexivity. Qed.

Lemma patch_steps (m : UvMap) (pushed : list (option nat)) (uvk : nat -> Q * Q)
    (f : nat) (P S : list Q) (ks : list nat) :
  (forall k, In k ks -> uvMap_get m (nth k pushed None) = Some (uvk k)) ->
  List.length P = (f * 9 * 5)%nat ->
  forall C : list Q,
    (forall k, In k ks -> (k * 5 + 4 < List.length C)%nat) ->
    fold_left
      (fun a k =>
         match a with
         | None => None
         | Some arr =>
             match uvMap_get m (nth k pushed None) with
             | None => None
             | Some uv =>
                 Some (update (update arr (f * 9 * 5 + k * 5 + 3) (fun _ => fst uv))
                              (f * 9 * 5 + k * 5 + 4) (fun _ => snd uv))
             end
         end)
      ks (Some (P ++ C ++ S))
    = Some (P ++ fold_left
                   (fun arr k =>
                      update (update arr (k * 5 + 3) (fun _ => fst (uvk k)))
                             (k * 5 + 4) (fun _ => snd (uvk k)))
                   ks C
              ++ S).
Proof.
  intros Hm HP. induction ks as [|k ks IH]; intros C HC; [reflexivity|].
  cbn [fold_left].
  rewrite (Hm k (or_introl eq_refl)).
  assert (Hk : (k * 5 + 4 < List.length C)%nat) by (apply HC; now left).
  replace (f * 9 * 5 + k * 5 + 3)%nat with (List.length P + (k * 5 + 3))%nat by lia.
  replace (f * 9 * 5 + k * 5 + 4)%nat with (List.length P + (k * 5 + 4))%nat by lia.
  rewrite update_app_r, (update_app_l C S (k * 5 + 3)) by lia.
  rewrite update_app_r.
  rewrite (update_app_l (update C (k * 5 + 3) (fun _ => fst (uvk k))) S (k * 5 + 4))
    by (rewrite update_length; lia).
  apply IH.
  - intros k' Hk'. apply Hm. now right.
  - intros k' Hk'. rewrite !update_length. apply HC. now right.
Qed.

Lemma patch_chunk (face : list nat) :
  List.length face = 5%nat ->
  Forall (fun v => (v < List.length vs)%nat) face ->
  fold_left
    (fun arr k =>
       update (update arr (k * 5 + 3)
                 (fun _ => fst (cornerUv PI cos sin (nth k fanCorners O))))
              (k * 5 + 4) (fun _ => snd (cornerUv PI cos sin (nth k fanCorners O))))
    (seq 0 9) (scaledChunk vs face)
  = finalChunk PI cos sin vs face
  /\ List.length (scaledChunk vs face) = 45%nat
  /\ List.length (finalChunk PI cos sin vs face) = 45%nat.
Proof.
  intros Hl Hin.
  destruct face as [|a [|b [|c [|d [|e [|]]]]]]; try discriminate.
  assert (H3 : forall v, In v [a; b; c; d; e] -> List.length (nth v vs []) = 3%nat).
  { intros v Hv. rewrite Forall_forall in Hin, vs_xyz.
    apply vs_xyz, nth_In, Hin, Hv. }
  pose proof (H3 a ltac:(cbn; tauto)) as Ha.
  pose proof (H3 b ltac:(cbn; tauto)) as Hb.
  pose proof (H3 c ltac:(cbn; tauto)) as Hc.
  pose proof (H3 d ltac:(cbn; tauto)) as Hd.
  pose proof (H3 e ltac:(cbn; tauto)) as He.
  unfold scaledChunk, finalChunk, fanCorners. cbn [flat_map nth].
  destruct (nth a vs []) as [|xa [|ya [|za [|]]]]; try discriminate.
  destruct (nth b vs []) as [|xb [|yb [|zb [|]]]]; try discriminate.
  destruct (nth c vs []) as [|xc [|yc [|zc [|]]]]; try discriminate.
  destruct (nth d vs []) as [|xd [|yd [|zd [|]]]]; try discriminate.
  destruct (nth e vs []) as [|xe [|ye [|ze [|]]]]; try discriminate.
  repeat split.
Qed.

Lemma patchFace_chunk (P S : list Q) (f : nat) (face : list nat) :
  List.length face = 5%nat ->
  NoDup face ->
  Forall (fun v => (v < List.length vs)%nat) face ->
  List.length P = (f * 9 * 5)%nat ->
  patchFace PI cos sin (Some (P ++ scaledChunk vs face ++ S)) f face
  = Some (P ++ finalChunk PI cos sin vs face ++ S).
Proof.
  intros Hl Hnd Hin HP.
  destruct (patch_chunk face Hl Hin) as (Hfold & Hlen & _).
  rewrite patchFace_unfold.
  rewrite (patch_steps (uvMapOf PI cos sin face) (pushedIndicesOf face)
             (fun k => cornerUv PI cos sin (nth k fanCorners O)) f P S (seq 0 9)).
  - now rewrite Hfold.
  - intros k Hk. apply uv_lookup; try assumption. apply in_seq in Hk. lia.
  - exact HP.
  - intros k Hk. apply in_seq in Hk. rewrite Hlen. lia.
Qed.

Lemma finalChunks_length (fs : list (list nat)) :
  wellFormed (List.length vs) fs ->
  List.length (flat_map (finalChunk PI cos sin vs) fs)
  = (List.length fs * 9 * 5)%nat.
Proof.
  induction 1 as [|face fs (Hl & _ & Hin) _ IH]; [reflexivity|].
  cbn [flat_map List.length]. rewrite length_app, IH.
  destruct (patch_chunk face Hl Hin) as (_ & _ & ->). lia.
Qed.

Lemma patch_faces (suf pre : list (list nat)) :
  wellFormed (List.length vs) pre ->
  wellFormed (List.length vs) suf ->
  fold_left (fun a f => patchFace PI cos sin a f (nth f (pre ++ suf) []))
            (seq (List.length pre) (List.length suf))
            (Some (flat_map (finalChunk PI cos sin vs) pre
                   ++ flat_map (scaledChunk vs) suf))
  = Some (flat_map (finalChunk PI cos sin vs) (pre ++ suf)).
Proof.
  revert pre. induction suf as [|face suf IH]; intros pre Hpre Hsuf.
  - cbn. now rewrite !app_nil_r.
  - inversion Hsuf as [|? ? (Hl & Hnd & Hin) Hsuf']; subst.
    cbn [List.length seq fold_left flat_map].
    rewrite nth_middle.
    rewrite (patchFace_chunk _ _ (List.length pre) face Hl Hnd Hin
               (finalChunks_length pre Hpre)).
    replace (pre ++ face :: suf) with ((pre ++ [face]) ++ suf)
      by (now rewrite <- app_assoc).
    replace (S (List.length pre)) with (List.length (pre ++ [face]))
      by (rewrite length_app; cbn; lia).
    replace (flat_map (finalChunk PI cos sin vs) pre
             ++ finalChunk PI cos sin vs face ++ flat_map (scaledChunk vs) suf)
      with (flat_map (finalChunk PI cos sin vs) (pre ++ [face])
            ++ flat_map (scaledChunk vs) suf)
      by (rewrite flat_map_app; cbn [flat_map]; now rewrite app_nil_r, <- app_assoc).
    apply IH; [|exact Hsuf'].
    apply Forall_app. split; [exact Hpre|]. constructor; [now repeat split | constructor].
Qed.

(** The three passes of [generate] produce the layout. *)
Lemma generate_layout (fs : list (list nat)) :
  wellFormed (List.length vs) fs ->
  generate PI cos sin vs fs = Some (layout PI cos sin vs fs)
  /\ List.length (layout PI cos sin vs fs) = (List.length fs * 9 * 5)%nat.
Proof.
  intros Hwf. split.
  - unfold generate.
    rewrite (triangulate_chunks fs [] Hwf). cbn [app].
    rewrite (scaled_chunks fs Hwf).
    exact (patch_faces fs [] (Forall_nil _) Hwf).
  - exact (finalChunks_length fs Hwf).
Qed.

(** *** Reading a vertex record *)

Lemma record_of_blocks (blocks : list (list Q)) :
  Forall (fun b => List.length b = 5%nat) blocks ->
  forall j, (j < List.length blocks)%nat ->
    vertexRecord (concat blocks) j = nth j blocks [].
Proof.
  unfold vertexRecord.
  induction 1 as [|b bs Hb _ IH]; intros j Hj; [cbn in Hj; lia|].
  destruct b as [|b0 [|b1 [|b2 [|b3 [|b4 [|]]]]]]; try discriminate.
  destruct j as [|j].
  - reflexivity.
  - replace (5 * S j)%nat with (5 + 5 * j)%nat by lia.
    cbn [Nat.add concat app skipn nth].
    apply IH. cbn in Hj. lia.
Qed.

Lemma corners_length (fs : list (list nat)) :
  List.length (corners fs) = (9 * List.length fs)%nat.
Proof.
  unfold corners. induction fs as [|face fs IH]; [reflexivity|].
  cbn [flat_map List.length]. rewrite length_app, IH. cbn. lia.
Qed.

Lemma corners_nth (fs : list (list nat)) :
  forall f k, (f < List.length fs)%nat -> (k < 9)%nat ->
    nth (9 * f + k) (corners fs) ([], O) = (nth f fs [], nth k fanCorners O).
Proof.
  induction fs as [|face fs IH]; intros f k Hf Hk; [cbn in Hf; lia|].
  destruct f as [|f].
  - cbn [Nat.mul Nat.add].
    do 9 (destruct k as [|k]; [reflexivity|]). lia.
  - replace (9 * S f + k)%nat with (9 + (9 * f + k))%nat by lia.
    unfold corners. cbn [flat_map]. fold (corners fs).
    unfold fanCorners at 1. cbn [map app Nat.add nth].
    apply IH; [cbn in Hf; lia | exact Hk].
Qed.

Lemma nth_map_default (A B : Type) (g : A -> B) (l : list A) (j : nat)
    (d : B) (d' : A) :
  (j < List.length l)%nat -> nth j (map g l) d = g (nth j l d').
Proof.
  intros Hj. rewrite (nth_indep _ d (g d')) by (now rewrite length_map).
  apply map_nth.
Qed.

Lemma layout_record (fs : list (list nat)) (f k : nat) :
  wellFormed (List.length vs) fs ->
  (f < List.length fs)%nat ->
  (k < 9)%nat ->
  vertexRecord (layout PI cos sin vs fs) (9 * f + k)
  = map (fun x => x * 0.8) (nth (nth (nth k fanCorners O) (nth f fs []) O) vs [])
    ++ [fst (cornerUv PI cos sin (nth k fanCorners O));
        snd (cornerUv PI cos sin (nth k fanCorners O))].
Proof.
  intros Hwf Hf Hk. unfold layout.
  rewrite (chunks_as_blocks
             (fun face c => map (fun x => x * 0.8) (nth (nth c face O) vs [])
                            ++ [fst (cornerUv PI cos sin c);
                                snd (cornerUv PI cos sin c)])).
  rewrite record_of_blocks.
  - rewrite (nth_map_default _ _ _ (corners fs) (9 * f + k) [] ([], O))
      by (rewrite corners_length; lia).
    rewrite (corners_nth fs f k Hf Hk). reflexivity.
  - rewrite Forall_forall. intros b Hb.
    apply in_map_iff in Hb. destruct Hb as (fc & <- & Hfc).
    rewrite length_app, length_map, (corner_vertex fs fc Hwf Hfc). reflexivity.
  - rewrite length_map, corners_length. lia.
Qed.

End Tables.

(** *** Faces that cannot be triangulated *)

Lemma pushVertex_none (vs : list (list Q)) (vi : option nat) :
  pushVertex vs None vi = None.
Proof. reflexivity. Qed.

Lemma pushFace_none (vs : list (list Q)) (face : list nat) :
  pushFace vs None face = None.
Proof. reflexivity. Qed.

Lemma pushVertex_bad (vs : list (list Q)) (a : option (list Q)) (vi : option nat) :
  match vi with Some i => (List.length vs <= i)%nat | None => True end ->
  pushVertex vs a vi = None.
Proof.
  intros H. unfold pushVertex. destruct a as [fv|]; [|reflexivity].
  destruct vi as [i|]; [|reflexivity].
  apply nth_error_None in H. now rewrite H.
Qed.

Lemma pushFace_bad (vs : list (list Q)) (a : option (list Q)) (face : list nat)
    (p : nat) :
  (p < 5)%nat ->
  match nth_error face p with
  | Some i => (List.length vs <= i)%nat
  | None => True
  end ->
  pushFace vs a face = None.
Proof.
  intros Hp Hbad. unfold pushFace. cbn [fold_left Nat.add].
  do 5 (destruct p as [|p];
        [ rewrite (fun a => pushVertex_bad vs a _ Hbad); reflexivity | ]).
  lia.
Qed.

Lemma triangulate_bad (vs : list (list Q)) (fs : list (list nat))
    (face : list nat) (p : nat) :
  In face fs ->
  (p < 5)%nat ->
  match nth_error face p with
  | Some i => (List.length vs <= i)%nat
  | None => True
  end ->
  forall a, fold_left (pushFace vs) fs a = None.
Proof.
  intros Hin Hp Hbad.
  induction fs as [|face' fs IH]; [contradiction|]. intros a.
  cbn [fold_left]. destruct Hin as [-> | Hin].
  - rewrite (pushFace_bad vs a face p Hp Hbad).
    clear. induction fs as [|x fs IH]; [reflexivity | exact IH].
  - now apply IH.
Qed.

Lemma faces_wellFormed : wellFormed 20 faces.
Proof.
  unfold wellFormed, faces.
  repeat (apply Forall_cons;
          [ split; [reflexivity|];
            split; [ repeat (constructor; [cbn; lia|]); constructor
                   | repeat (apply Forall_cons; [lia|]); apply Forall_nil ]
          | ]).
  apply Forall_nil.
Qed.

Lemma edge_eqb_eq (e e' : nat * nat) : edge_eqb e e' = true <-> e = e'.
Proof.
  destruct e as [a b], e' as [a' b']. unfold edge_eqb. cbn [fst snd].
  rewrite andb_true_iff, !Nat.eqb_eq. split; [intros [-> ->] | intros [= -> ->]]; auto.
Qed.

Lemma distinctEdges_NoDup (l : list (nat * nat)) :
  distinctEdges l = true -> NoDup l.
Proof.
  induction l as [|e l IH]; intros H; [constructor|].
  cbn [distinctEdges] in H. apply andb_true_iff in H. destruct H as [Hn Hd].
  constructor; [|now apply IH].
  intros Hin. apply negb_true_iff in Hn.
  assert (Hex : existsb (edge_eqb e) l = true).
  { apply existsb_exists. exists e. split; [exact Hin | now apply edge_eqb_eq]. }
  congruence.
Qed.

Lemma reversible_spec (l : list (nat * nat)) :
  reversible l = true -> forall a b, In (a, b) l -> In (b, a) l.
Proof.
  unfold reversible. intros H a b Hin.
  rewrite forallb_forall in H. specialize (H (a, b) Hin). cbn [fst snd] in H.
  apply existsb_exists in H. destruct H as (e & He & Heq).
  apply edge_eqb_eq in Heq. now subst e.
Qed.

Lemma vertices_xyz (sqrt5 : Q) :
  List.length (vertices sqrt5) = 20%nat
  /\ Forall (fun v => List.length v = 3%nat) (vertices sqrt5).
Proof.
  split; [reflexivity|]. unfold vertices. repeat constructor.
Qed.

(** X22. The mesh algorithm, for every table of [x, y, z] vertices and
    every table of pentagons with five different indices into it: the three
    passes (fan triangulation with placeholder coordinates, scaling in
    place, texture coordinates through a map keyed by vertex index) return a
    buffer of 45 floats per face in which vertex record [9 f + k] holds 0.8
    times the vertex at corner [c] of face [f] followed by the texture
    coordinate of corner [c], where [c] is entry [k] of the fan
    [0 1 2 0 2 3 0 3 4]. *)
Theorem generate_builds_layout (PI : Q) (cos sin : Q -> Q)
    (vs : list (list Q)) (fs : list (list nat)) :
  Forall (fun v => List.length v = 3%nat) vs ->
  wellFormed (List.length vs) fs ->
  exists buffer,
    generate PI cos sin vs fs = Some buffer
    /\ List.length buffer = (45 * List.length fs)%nat
    /\ forall f k, (f < List.length fs)%nat -> (k < 9)%nat ->
         vertexRecord buffer (9 * f + k)
         = map (fun x => x * 0.8)
               (nth (nth (nth k fanCorners O) (nth f fs []) O) vs [])
           ++ [fst (cornerUv PI cos sin (nth k fanCorners O));
               snd (cornerUv PI cos sin (nth k fanCorners O))].
Proof.
  intros Hxyz Hwf.
  destruct (generate_layout PI cos sin vs Hxyz fs Hwf) as [Hg Hl].
  exists (layout PI cos sin vs fs).
  split; [exact Hg|]. split; [rewrite Hl; lia|].
  intros f k Hf Hk. now apply layout_record.
Qed.

Lemma generate_builds_layout_witness :
  exists buffer,
    generate 3 (fun _ => 0) (fun _ => 1) (vertices 2) faces = Some buffer
    /\ List.length buffer = (45 * List.length faces)%nat
    /\ forall f k, (f < List.length faces)%nat -> (k < 9)%nat ->
         vertexRecord buffer (9 * f + k)
         = map (fun x => x * 0.8)
               (nth (nth (nth k fanCorners O) (nth f faces []) O) (vertices 2) [])
           ++ [fst (cornerUv 3 (fun _ => 0) (fun _ => 1) (nth k fanCorners O));
               snd (cornerUv 3 (fun _ => 0) (fun _ => 1) (nth k fanCorners O))].
Proof.
  apply (generate_builds_layout 3 (fun _ => 0) (fun _ => 1) (vertices 2) faces).
  - apply vertices_xyz.
  - exact faces_wellFormed.
Defined.

(** X23. [getVertices] of the dodecahedron never throws, and its buffer
    agrees with [getVertexCount]: it holds five floats for each of the
    [12 * 3 * 3] vertices, whatever values [Math.sqrt], [Math.PI],
    [Math.cos] and [Math.sin] give; the position of every vertex record is
    0.8 times one of the twenty vertices. *)
Theorem dodecahedron_buffer (sqrt5 PI : Q) (cos sin : Q -> Q) :
  exists buffer,
    getVertices sqrt5 PI cos sin = Some buffer
    /\ List.length buffer = (5 * getVertexCount)%nat
    /\ forall j, (j < getVertexCount)%nat ->
         exists v,
           In v (vertices sqrt5)
           /\ firstn 3 (vertexRecord buffer j) = map (fun x => x * 0.8) v.
Proof.
  destruct (vertices_xyz sqrt5) as [H20 Hxyz].
  assert (Hwf : wellFormed (List.length (vertices sqrt5)) faces)
    by (rewrite H20; exact faces_wellFormed).
  destruct (generate_layout PI cos sin (vertices sqrt5) Hxyz faces Hwf) as [Hg Hl].
  exists (layout PI cos sin (vertices sqrt5) faces).
  split; [exact Hg|]. split; [exact Hl|].
  intros j Hj. unfold getVertexCount in Hj.
  assert (Hf : (j / 9 < List.length faces)%nat).
  { apply Nat.Div0.div_lt_upper_bound. exact Hj. }
  assert (Hk : (j mod 9 < 9)%nat) by (apply Nat.mod_upper_bound; discriminate).
  rewrite (Nat.div_mod_eq j 9).
  rewrite (layout_record PI cos sin (vertices sqrt5) Hxyz faces _ _ Hwf Hf Hk).
  assert (Hi : (nth (nth (j mod 9) fanCorners O) (nth (j / 9) faces []) O
                < List.length (vertices sqrt5))%nat).
  { unfold wellFormed in Hwf. rewrite Forall_forall in Hwf.
    destruct (Hwf (nth (j / 9) faces []) (nth_In _ _ Hf)) as (Hl5 & _ & Hin).
    rewrite Forall_forall in Hin. apply Hin, nth_In. rewrite Hl5.
    remember (j mod 9)%nat as k. clear -Hk.
    do 9 (destruct k as [|k]; [cbn; lia|]). lia. }
  remember (nth (nth (j mod 9) fanCorners O) (nth (j / 9) faces []) O) as i eqn:Ei.
  clear Ei.
  exists (nth i (vertices sqrt5) []).
  split; [now apply nth_In|].
  rewrite Forall_forall in Hxyz.
  pose proof (Hxyz _ (nth_In _ [] Hi)) as H3.
  remember (nth i (vertices sqrt5) []) as v eqn:Ev. clear Ev.
  destruct v as [|x [|y [|z [|]]]]; try discriminate H3.
  reflexivity.
Qed.

(** X24. If cosine and sine stay within [[-1, 1]], every texture coordinate
    of the dodecahedron buffer lies in the unit square. *)
Theorem dodecahedron_uv_in_unit_square (sqrt5 PI : Q) (cos sin : Q -> Q) :
  (forall a, -1 <= cos a <= 1) ->
  (forall a, -1 <= sin a <= 1) ->
  exists buffer,
    getVertices sqrt5 PI cos sin = Some buffer
    /\ forall j, (j < getVertexCount)%nat ->
         0 <= nth 3 (vertexRecord buffer j) 0 <= 1
         /\ 0 <= nth 4 (vertexRecord buffer j) 0 <= 1.
Proof.
  intros Hcos Hsin.
  destruct (vertices_xyz sqrt5) as [H20 Hxyz].
  assert (Hwf : wellFormed (List.length (vertices sqrt5)) faces)
    by (rewrite H20; exact faces_wellFormed).
  destruct (generate_layout PI cos sin (vertices sqrt5) Hxyz faces Hwf) as [Hg _].
  exists (layout PI cos sin (vertices sqrt5) faces).
  split; [exact Hg|].
  intros j Hj. unfold getVertexCount in Hj.
  assert (Hf : (j / 9 < List.length faces)%nat).
  { apply Nat.Div0.div_lt_upper_bound. exact Hj. }
  assert (Hk : (j mod 9 < 9)%nat) by (apply Nat.mod_upper_bound; discriminate).
  rewrite (Nat.div_mod_eq j 9).
  rewrite (layout_record PI cos sin (vertices sqrt5) Hxyz faces _ _ Hwf Hf Hk).
  assert (H3 : List.length
                 (nth (nth (nth (j mod 9) fanCorners O) (nth (j / 9) faces []) O)
                      (vertices sqrt5) []) = 3%nat).
  { apply (corner_vertex (vertices sqrt5) Hxyz faces
             (nth (j / 9) faces [], nth (j mod 9) fanCorners O) Hwf).
    rewrite <- (corners_nth faces (j / 9) (j mod 9) Hf Hk).
    apply nth_In. rewrite corners_length. lia. }
  remember (nth (nth (nth (j mod 9) fanCorners O) (nth (j / 9) faces []) O)
                (vertices sqrt5) []) as v eqn:Ev. clear Ev.
  destruct v as [|x [|y [|z [|]]]]; try discriminate H3.
  cbn [map app nth]. unfold cornerUv. cbn [fst snd].
  remember (inject_Z (Z.of_nat (nth (j mod 9) fanCorners O)) / 5 * PI * 2 - PI / 2)
    as angle eqn:Ea. clear Ea.
  pose proof (Hcos angle). pose proof (Hsin angle).
  split; split; lra.
Qed.

Lemma dodecahedron_uv_in_unit_square_witness :
  exists buffer,
    getVertices 2 3 (fun _ => 0) (fun _ => 1) = Some buffer
    /\ forall j, (j < getVertexCount)%nat ->
         0 <= nth 3 (vertexRecord buffer j) 0 <= 1
         /\ 0 <= nth 4 (vertexRecord buffer j) 0 <= 1.
Proof.
  apply (dodecahedron_uv_in_unit_square 2 3 (fun _ => 0) (fun _ => 1)).
  - intros a. split; vm_compute; discriminate.
  - intros a. split; vm_compute; discriminate.
Defined.

(** X25. The face table of the dodecahedron describes a closed surface
    with one winding: its twelve pentagons have five different indices
    below 20 each, their 60 directed edges are all different, every edge is
    walked once in each direction, and every one of the twenty vertices
    lies on exactly three faces. *)
Theorem faces_closed_and_consistently_wound :
  List.length faces = 12%nat
  /\ wellFormed 20 faces
  /\ List.length allDirectedEdges = 60%nat
  /\ NoDup allDirectedEdges
  /\ (forall a b, In (a, b) allDirectedEdges -> In (b, a) allDirectedEdges)
  /\ Forall (fun v => facesAt v = 3%nat) (seq 0 20).
Proof.
  split; [reflexivity|]. split; [exact faces_wellFormed|].
  split; [reflexivity|].
  split; [apply distinctEdges_NoDup; vm_compute; reflexivity|].
  split; [apply reversible_spec; vm_compute; reflexivity|].
  rewrite Forall_forall. intros v Hv. apply in_seq in Hv.
  do 20 (destruct v as [|v]; [reflexivity|]). lia.
Qed.

(** X26. A face that cannot be triangulated makes the whole call fail:
    if one of the first five entries of some face is missing or is not an
    index into the vertex table, [generate] throws (returns [None]),
    wherever the face stands in the table. *)
Theorem generate_rejects_bad_face (PI : Q) (cos sin : Q -> Q)
    (vs : list (list Q)) (fs : list (list nat)) (face : list nat) (p : nat) :
  In face fs ->
  (p < 5)%nat ->
  match nth_error face p with
  | Some i => (List.length vs <= i)%nat
  | None => True
  end ->
  generate PI cos sin vs fs = None.
Proof.
  intros Hin Hp Hbad. unfold generate.
  now rewrite (triangulate_bad vs fs face p Hin Hp Hbad).
Qed.

Lemma generate_rejects_bad_face_witness :
  generate 3 (fun _ => 0) (fun _ => 1) (vertices 2)
           [[14; 12; 0; 8; 4]; [16; 2; 10; 8; 20]]%nat
  = None.
Proof.
  apply (generate_rejects_bad_face 3 (fun _ => 0) (fun _ => 1) (vertices 2)
           [[14; 12; 0; 8; 4]; [16; 2; 10; 8; 20]]%nat
           [16; 2; 10; 8; 20]%nat 4).
  - right. left. reflexivity.
  - lia.
  - cbn. lia.
Defined.

End DodecahedronFacts.
